(** * geo-tracking-app: the location-tracking screens

    A shallow embedding of the two [RealTimeMap] screens, of [fetchAddress]
    and of the [reverseGeocodeApi] client they use.

    The screens are asynchronous JavaScript: an [async] function runs up to
    its next [await], and its continuation runs when the awaited operation
    settles.  Each such piece is a state transformer here, and the pieces are
    the transitions of a step function on the component's state; the
    operations that are in flight are kept in the state ([pending]) and the
    environment decides which one settles next and how.  Everything the code
    does to the outside (console, alerts, HTTP requests, socket frames,
    [clearWatch]) is appended to a [trace]. *)

From Stdlib Require Import List String Bool Arith NArith Lia PrimFloat Permutation.
#[local] Set Warnings "-register-all".
Import ListNotations.
Open Scope string_scope.
Open Scope list_scope.

(** ** JavaScript values *)

(** A JavaScript [number] is an IEEE 754 binary64. *)
Definition number : Type := float.

(** Truthiness of a number, as [||] tests it: [+0], [-0] and [NaN] are
    falsy. *)
Definition number_truthy (x : number) : bool :=
  negb (is_zero x || is_nan x).

(** Truthiness of a string: only the empty string is falsy. *)
Definition string_truthy (s : string) : bool :=
  match s with
  | EmptyString => false
  | String _ _ => true
  end.

Record JsError : Type := mkJsError {
  err_name : string;
  err_message : string
}.

Inductive Result (A : Type) : Type :=
| Ok (a : A)
| Err (e : JsError).
Arguments Ok {A} a.
Arguments Err {A} e.

(** A parsed JSON document, as the HTTP client hands it over in
    [response.data]. *)
Inductive Json : Type :=
| JNull
| JBool (b : bool)
| JNumber (x : number)
| JString (s : string)
| JArray (xs : list Json)
| JObject (fields : list (string * Json)).

Fixpoint assoc {A : Type} (k : string) (l : list (string * A)) : option A :=
  match l with
  | [] => None
  | (k', v) :: l' => if String.eqb k k' then Some v else assoc k l'
  end.

(** [v.key] for a value that is neither [null] nor [undefined]: [None] is
    [undefined].  Only objects carry the properties the code reads. *)
Definition get_property (v : Json) (key : string) : option Json :=
  match v with
  | JObject fields => assoc key fields
  | _ => None
  end.

Inductive OS : Type := Android | IOS.

(** What the runtime provides and the repository does not define. *)
Class Platform : Type := {
  Platform_OS : OS;
  JSON_stringify : Json -> string
}.

(** ** Data model *)

Inductive EventType : Type := START | ONGOING | FINISH.

Definition EventType_eqb (a b : EventType) : bool :=
  match a, b with
  | START, START | ONGOING, ONGOING | FINISH, FINISH => true
  | _, _ => false
  end.

(** [interface Location] of the event-forwarding screen.  [reverseData] is
    [None] when the field holds [undefined], which [fetchAddress] returns for
    a response without an [address]. *)
Record Location : Type := mkLocation {
  latitude : number;
  longitude : number;
  timestamp : option string;
  reverseData : option string
}.

Record DeviceData : Type := mkDeviceData {
  deviceId : string;
  deviceName : string;
  os : string
}.

Record GeolocationCoordinates : Type := mkCoords {
  coords_latitude : number;
  coords_longitude : number;
  accuracy : number
}.

(** The argument of a position callback.  The declared type makes [coords]
    mandatory; the stream callback tests for its absence, so it is optional
    here. *)
Record GeolocationPosition : Type := mkPosition {
  coords : option GeolocationCoordinates;
  position_timestamp : number
}.

Record GeolocationPositionError : Type := mkPositionError {
  code : nat;
  message : string
}.

(** The [data] object of an outgoing message; [None] is [null]. *)
Record PayloadData : Type := mkPayloadData {
  data_deviceId : string;
  data_deviceName : string;
  data_os : string;
  eventType : EventType;
  data_latitude : option number;
  data_longitude : option number;
  data_reverseData : string
}.

Record Payload : Type := mkPayload {
  event : string;
  data : PayloadData
}.

Inductive ReadyState : Type := CONNECTING | OPEN | CLOSING | CLOSED.

Definition ReadyState_eqb (a b : ReadyState) : bool :=
  match a, b with
  | CONNECTING, CONNECTING | OPEN, OPEN | CLOSING, CLOSING | CLOSED, CLOSED => true
  | _, _ => false
  end.

Record WebSocket : Type := mkWebSocket {
  url : string;
  readyState : ReadyState
}.

(** ** The HTTP client (src/axios.ts) *)

Record AxiosInstance : Type := mkAxios {
  baseURL : string;
  timeout : N
}.

Definition reverseGeocodeApi : AxiosInstance :=
  {| baseURL := "https://nominatim.openstreetmap.org"; timeout := 10000%N |}.

Inductive ParamValue : Type :=
| PString (s : string)
| PNumber (x : number).

Record AxiosResponse : Type := mkResponse {
  status : nat;
  response_data : option Json
}.

(** How the promise of [reverseGeocodeApi.get] settles. *)
Inductive AxiosOutcome : Type :=
| Resolved (response : AxiosResponse)
| Rejected (e : JsError).

(** ** Observable effects *)

Inductive ErrorValue : Type :=
| ErrJs (e : JsError)
| ErrPosition (e : GeolocationPositionError).

Inductive Obs : Type :=
| ConsoleLog (msg : string)
| ConsoleLogPayload (msg : string) (payload : Payload)
| ConsoleLogLocation (msg : string) (location : Location)
| ConsoleError (msg : string) (detail : option ErrorValue)
| AlertShown (title body : string)
| PermissionRequested
| HttpGet (client : AxiosInstance) (path : string)
          (params : list (string * ParamValue))
| WsSend (frame : Payload)
| WsCloseCalled
| ClearWatch (id : nat)
| UnhandledRejection (e : JsError).

(** The events handed to [sendLocationEvent], in order: every call logs its
    payload before it looks at the socket. *)
Fixpoint emitted (tr : list Obs) : list Payload :=
  match tr with
  | [] => []
  | ConsoleLogPayload _ p :: tr' => p :: emitted tr'
  | _ :: tr' => emitted tr'
  end.

(** The frames written to the socket, in order. *)
Fixpoint transmitted (tr : list Obs) : list Payload :=
  match tr with
  | [] => []
  | WsSend p :: tr' => p :: transmitted tr'
  | _ :: tr' => transmitted tr'
  end.

(** The requests issued, in order. *)
Fixpoint requests (tr : list Obs)
  : list (AxiosInstance * string * list (string * ParamValue)) :=
  match tr with
  | [] => []
  | HttpGet c p q :: tr' => (c, p, q) :: requests tr'
  | _ :: tr' => requests tr'
  end.

Definition emittedOf (k : EventType) (tr : list Obs) : nat :=
  List.length (filter (fun p => EventType_eqb (eventType (data p)) k) (emitted tr)).

(** ** fetchAddress (reverseGeocodeApi.ts) *)

(** The part of [fetchAddress] that runs at the call: the request. *)
Definition fetchAddress_request (latitude longitude : number) : Obs :=
  HttpGet reverseGeocodeApi "/reverse"
    [("format", PString "jsonv2"); ("lat", PNumber latitude); ("lon", PNumber longitude)].

(** The error [response.data.address] raises when [response.data] is [null]
    or [undefined]; the wording of the message is the engine's. *)
Definition TypeError_address : JsError :=
  {| err_name := "TypeError";
     err_message := "Cannot read property 'address' of undefined" |}.

Section FetchAddress.
Context `{Platform}.

(** The part of [fetchAddress] after the [await]: what it logs and how it
    settles.  [Ok None] is the value [undefined], which [JSON.stringify]
    returns for [undefined]. *)
Definition fetchAddress_resume (r : AxiosOutcome)
  : list Obs * Result (option string) :=
  match r with
  | Resolved response =>
      match response_data response with
      | None | Some JNull =>
          ([ConsoleError "Error fetching address:" (Some (ErrJs TypeError_address))],
           Err TypeError_address)
      | Some body =>
          ([], Ok (option_map JSON_stringify (get_property body "address")))
      end
  | Rejected error =>
      ([ConsoleError "Error fetching address:" (Some (ErrJs error))], Err error)
  end.

End FetchAddress.

(** ** requestLocationPermission

    Both screens define this function, with the same body.  [reply] is how
    the promise of [PermissionsAndroid.request] settles; nothing is asked on
    the other platform. *)

Inductive PermissionStatus : Type := GRANTED | DENIED | NEVER_ASK_AGAIN.

Section Permission.
Context `{Platform}.

Definition requestLocationPermission (reply : Result PermissionStatus) : Result bool :=
  match Platform_OS with
  | Android =>
      match reply with
      | Ok granted => Ok (match granted with GRANTED => true | _ => false end)
      | Err e => Err e
      end
  | IOS => Ok true
  end.

End Permission.

(** ** The event-forwarding screen (second [RealTimeMap]) *)

Module Tracker.

(** The object [lastLocation] of [stopTracking] denotes: the last element of
    [locations] (the array of the state holds that very object, at a position
    that never changes since the array only grows), or the object built when
    the array is empty. *)
Inductive LocationRef : Type :=
| Stored (index : nat)
| Fresh (location : Location).

(** An asynchronous operation in flight, with what its continuation has
    captured. *)
Inductive Task : Type :=
| StartAwaitPermission
| StartAwaitDeviceData
| CurrentPositionRequest (deviceData : DeviceData)
| StartAwaitAddress (deviceData : DeviceData) (latitude longitude : number)
| WatchAwaitAddress (deviceData : DeviceData) (latitude longitude : number)
| StopAwaitAddress (lastLocation : LocationRef)
| StopAwaitDeviceData (lastLocation : LocationRef).

(** The state of the screen and of what it holds at the platform.  A handler
    reads [tracking] and [locations] through the render that created it; the
    button always holds the handlers of the latest render, so a call reads
    the current values.  State updates requested after teardown are applied
    like any other: no statement below reads the state of a screen that is
    gone. *)
Record State : Type := mkState {
  tracking : bool;                      (* useState(false) *)
  locations : list Location;            (* useState([]) *)
  ws : option WebSocket;                (* ws.current *)
  watchId : option nat;                 (* watchId.current *)
  watchers : list (nat * DeviceData);   (* live subscriptions of Geolocation,
                                           with the deviceData of their callbacks *)
  nextWatchId : nat;
  pending : list Task;
  trace : list Obs
}.

Definition initial : State :=
  {| tracking := false; locations := []; ws := None; watchId := None;
     watchers := []; nextWatchId := 0; pending := []; trace := [] |}.

Definition set_tracking (b : bool) (st : State) : State :=
  {| tracking := b; locations := locations st; ws := ws st; watchId := watchId st;
     watchers := watchers st; nextWatchId := nextWatchId st;
     pending := pending st; trace := trace st |}.

Definition set_locations (l : list Location) (st : State) : State :=
  {| tracking := tracking st; locations := l; ws := ws st; watchId := watchId st;
     watchers := watchers st; nextWatchId := nextWatchId st;
     pending := pending st; trace := trace st |}.

Definition set_ws (w : option WebSocket) (st : State) : State :=
  {| tracking := tracking st; locations := locations st; ws := w; watchId := watchId st;
     watchers := watchers st; nextWatchId := nextWatchId st;
     pending := pending st; trace := trace st |}.

Definition set_watchId (w : option nat) (st : State) : State :=
  {| tracking := tracking st; locations := locations st; ws := ws st; watchId := w;
     watchers := watchers st; nextWatchId := nextWatchId st;
     pending := pending st; trace := trace st |}.

Definition set_watchers (w : list (nat * DeviceData)) (n : nat) (st : State) : State :=
  {| tracking := tracking st; locations := locations st; ws := ws st; watchId := watchId st;
     watchers := w; nextWatchId := n;
     pending := pending st; trace := trace st |}.

Definition set_pending (p : list Task) (st : State) : State :=
  {| tracking := tracking st; locations := locations st; ws := ws st; watchId := watchId st;
     watchers := watchers st; nextWatchId := nextWatchId st;
     pending := p; trace := trace st |}.

Definition log (o : Obs) (st : State) : State :=
  {| tracking := tracking st; locations := locations st; ws := ws st; watchId := watchId st;
     watchers := watchers st; nextWatchId := nextWatchId st;
     pending := pending st; trace := trace st ++ [o] |}.

Definition logs (os : list Obs) (st : State) : State :=
  fold_left (fun s o => log o s) os st.

Fixpoint remove_nth {A : Type} (i : nat) (l : list A) : list A :=
  match l, i with
  | [], _ => []
  | _ :: l', 0 => l'
  | x :: l', S i' => x :: remove_nth i' l'
  end.

Definition await (t : Task) (st : State) : State :=
  set_pending (pending st ++ [t]) st.

Definition settle (i : nat) (st : State) : State :=
  set_pending (remove_nth i (pending st)) st.

(** [a || null] for a possibly missing number. *)
Definition number_or_null (a : option number) : option number :=
  match a with
  | Some x => if number_truthy x then Some x else None
  | None => None
  end.

(** [a || fallback] for a possibly missing string. *)
Definition string_or (a : option string) (fallback : string) : string :=
  match a with
  | Some s => if string_truthy s then s else fallback
  | None => fallback
  end.

(** [location?.field] *)
Definition optional {A B : Type} (f : A -> B) (a : option A) : option B :=
  option_map f a.

Definition bind_option {A B : Type} (a : option A) (f : A -> option B) : option B :=
  match a with
  | Some x => f x
  | None => None
  end.

Definition is_open (w : option WebSocket) : bool :=
  match w with
  | Some socket => ReadyState_eqb (readyState socket) OPEN
  | None => false
  end.

Definition make_payload (eventType : EventType) (deviceData : DeviceData)
    (location : option Location) : Payload :=
  {| event := "locationUpdate";
     data := {| data_deviceId := deviceId deviceData;
                data_deviceName := deviceName deviceData;
                data_os := os deviceData;
                eventType := eventType;
                data_latitude := number_or_null (optional latitude location);
                data_longitude := number_or_null (optional longitude location);
                data_reverseData :=
                  string_or (bind_option location reverseData) "Unknown" |} |}.

Definition sendLocationEvent (eventType : EventType) (deviceData : DeviceData)
    (location : option Location) (st : State) : State :=
  let payload := make_payload eventType deviceData location in
  let st := log (ConsoleLogPayload "Sending payload:" payload) st in
  if is_open (ws st)
  then log (WsSend payload) st
  else log (ConsoleLog "WebSocket is not open.") st.

(** What the queries of [DeviceInfo] answer. *)
Record DeviceInfoReply : Type := mkDeviceInfo {
  getUniqueId : Result string;
  getDeviceName : Result string;
  getSystemName : string;
  getSystemVersion : string
}.

Definition getDeviceData (info : DeviceInfoReply) : Result DeviceData :=
  match getUniqueId info with
  | Err e => Err e
  | Ok deviceId =>
      match getDeviceName info with
      | Err e => Err e
      | Ok deviceName =>
          Ok {| deviceId := deviceId; deviceName := deviceName;
                os := (getSystemName info ++ " " ++ getSystemVersion info)%string |}
      end
  end.

(** The error raised by reading the coordinates of a missing position. *)
Definition TypeError_coords : JsError :=
  {| err_name := "TypeError";
     err_message := "Cannot read property 'coords' of undefined" |}.

Definition unknownLocation : Location :=
  {| latitude := 0%float; longitude := 0%float; timestamp := None;
     reverseData := Some "Unknown" |}.

Definition find_watcher (id : nat) (w : list (nat * DeviceData)) : option DeviceData :=
  option_map snd (find (fun e => Nat.eqb (fst e) id) w).

(** [Geolocation.clearWatch(id)] *)
Definition clearWatch (id : nat) (st : State) : State :=
  set_watchers (filter (fun e => negb (Nat.eqb (fst e) id)) (watchers st))
    (nextWatchId st) (log (ClearWatch id) st).

(** [watchId.current = Geolocation.watchPosition(...)]: the subscription is
    registered with callbacks that hold [deviceData]. *)
Definition watchPosition (deviceData : DeviceData) (st : State) : State :=
  let id := nextWatchId st in
  set_watchId (Some id) (set_watchers (watchers st ++ [(id, deviceData)]) (S id) st).

Definition deref (r : LocationRef) (st : State) : Location :=
  match r with
  | Stored i => nth i (locations st) unknownLocation
  | Fresh l => l
  end.

Definition set_reverseData (v : option string) (l : Location) : Location :=
  {| latitude := latitude l; longitude := longitude l; timestamp := timestamp l;
     reverseData := v |}.

Fixpoint update_nth {A : Type} (i : nat) (f : A -> A) (l : list A) : list A :=
  match l, i with
  | [], _ => []
  | x :: l', 0 => f x :: l'
  | x :: l', S i' => x :: update_nth i' f l'
  end.

(** [lastLocation.reverseData = v]: the assignment reaches the object itself,
    so an element of [locations] changes in place.  [assign_store] is the
    state after the assignment, [assign_ref] the object [lastLocation]
    denotes from then on. *)
Definition assign_store (r : LocationRef) (v : option string) (st : State) : State :=
  match r with
  | Stored i => set_locations (update_nth i (set_reverseData v) (locations st)) st
  | Fresh _ => st
  end.

Definition assign_ref (r : LocationRef) (v : option string) : LocationRef :=
  match r with
  | Stored i => Stored i
  | Fresh l => Fresh (set_reverseData v l)
  end.

(** [!lastLocation.reverseData || lastLocation.reverseData === 'Unknown'] *)
Definition needs_address (l : Location) : bool :=
  match reverseData l with
  | None => true
  | Some s => negb (string_truthy s) || String.eqb s "Unknown"
  end.

Section Handlers.
Context `{Platform}.

(** *** startTracking *)

(** Up to [await requestLocationPermission()].  Off Android the awaited
    promise is already resolved and nothing can happen before the
    continuation runs; the transitions allow it all the same, which only
    adds runs. *)
Definition startTracking (st : State) : State :=
  await StartAwaitPermission
    (match Platform_OS with
     | Android => log PermissionRequested st
     | IOS => st
     end).

(** From the permission answer up to [await getDeviceData()]. *)
Definition startTracking_permission (reply : Result PermissionStatus) (st : State) : State :=
  match requestLocationPermission reply with
  | Err e => log (ConsoleError "Error in startTracking:" (Some (ErrJs e))) st
  | Ok false => log (AlertShown "Permission Denied" "Location access is required.") st
  | Ok true => await StartAwaitDeviceData (set_tracking true st)
  end.

(** From the device data to the end of the function: the one-shot read is
    requested and the subscription is opened. *)
Definition startTracking_deviceData (info : DeviceInfoReply) (st : State) : State :=
  match getDeviceData info with
  | Err e => log (ConsoleError "Error in startTracking:" (Some (ErrJs e))) st
  | Ok deviceData =>
      watchPosition deviceData (await (CurrentPositionRequest deviceData) st)
  end.

(** Success callback of [getCurrentPosition], up to [await fetchAddress]. *)
Definition getCurrentPosition_success (deviceData : DeviceData)
    (position : option GeolocationPosition) (st : State) : State :=
  match bind_option position coords with
  | None => log (UnhandledRejection TypeError_coords) st
  | Some c =>
      await (StartAwaitAddress deviceData (coords_latitude c) (coords_longitude c))
        (log (fetchAddress_request (coords_latitude c) (coords_longitude c)) st)
  end.

(** The rest of the success callback.  It has no [try]: a failed lookup
    rejects the callback's promise and nothing is sent. *)
Definition getCurrentPosition_success_address (deviceData : DeviceData)
    (latitude longitude : number) (r : AxiosOutcome) (st : State) : State :=
  let (logged, result) := fetchAddress_resume r in
  let st := logs logged st in
  match result with
  | Ok reverseData =>
      sendLocationEvent START deviceData
        (Some {| latitude := latitude; longitude := longitude; timestamp := None;
                 reverseData := reverseData |}) st
  | Err e => log (UnhandledRejection e) st
  end.

(** Error callback of [getCurrentPosition]. *)
Definition getCurrentPosition_error (deviceData : DeviceData)
    (error : GeolocationPositionError) (st : State) : State :=
  sendLocationEvent START deviceData
    (Some {| latitude := 0%float; longitude := 0%float; timestamp := None;
             reverseData := Some "Unknown" |})
    (log (ConsoleError "Error fetching initial location:" (Some (ErrPosition error))) st).

(** Success callback of [watchPosition], up to [await fetchAddress]. *)
Definition watchPosition_success (deviceData : DeviceData)
    (position : option GeolocationPosition) (st : State) : State :=
  match bind_option position coords with
  | None => log (ConsoleError "Invalid position data" None) st
  | Some c =>
      await (WatchAwaitAddress deviceData (coords_latitude c) (coords_longitude c))
        (log (fetchAddress_request (coords_latitude c) (coords_longitude c)) st)
  end.

(** The rest of the success callback, inside its [try]. *)
Definition watchPosition_success_address (deviceData : DeviceData)
    (latitude longitude : number) (r : AxiosOutcome) (st : State) : State :=
  let (logged, result) := fetchAddress_resume r in
  let st := logs logged st in
  match result with
  | Ok reverseData =>
      let location :=
        {| latitude := latitude; longitude := longitude; timestamp := None;
           reverseData := reverseData |} in
      sendLocationEvent ONGOING deviceData (Some location)
        (set_locations (locations st ++ [location]) st)
  | Err e => log (ConsoleError "Error processing position data:" (Some (ErrJs e))) st
  end.

(** Error callback of [watchPosition]. *)
Definition watchPosition_error (error : GeolocationPositionError) (st : State) : State :=
  log (AlertShown "Error" ("Unable to track location: " ++ message error)%string)
    (log (ConsoleError "Location Tracking Error:" (Some (ErrPosition error))) st).

(** *** stopTracking *)

(** Up to the first [await]: of [fetchAddress] when the last location has no
    address, of [getDeviceData] otherwise. *)
Definition stopTracking (st : State) : State :=
  if negb (tracking st) then log (ConsoleLog "Tracking is not active.") st
  else
    let st :=
      match watchId st with
      | Some id => set_watchId None (clearWatch id st)
      | None => st
      end in
    let st := set_tracking false st in
    let lastLocation :=
      if Nat.ltb 0 (List.length (locations st))
      then Stored (List.length (locations st) - 1)
      else Fresh unknownLocation in
    if needs_address (deref lastLocation st)
    then await (StopAwaitAddress lastLocation)
           (log (fetchAddress_request (latitude (deref lastLocation st))
                                      (longitude (deref lastLocation st))) st)
    else await (StopAwaitDeviceData lastLocation) st.

(** From the address to [await getDeviceData()]. *)
Definition stopTracking_address (lastLocation : LocationRef) (r : AxiosOutcome)
    (st : State) : State :=
  let (logged, result) := fetchAddress_resume r in
  let st := logs logged st in
  match result with
  | Ok reverseData =>
      await (StopAwaitDeviceData (assign_ref lastLocation reverseData))
        (assign_store lastLocation reverseData st)
  | Err e => log (ConsoleError "Error stopping tracking:" (Some (ErrJs e))) st
  end.

(** From the device data to the end of the function. *)
Definition stopTracking_deviceData (lastLocation : LocationRef) (info : DeviceInfoReply)
    (st : State) : State :=
  match getDeviceData info with
  | Ok deviceData =>
      log (ConsoleLogLocation "Tracking stopped. Last location sent:" (deref lastLocation st))
        (sendLocationEvent FINISH deviceData (Some (deref lastLocation st)) st)
  | Err e => log (ConsoleError "Error stopping tracking:" (Some (ErrJs e))) st
  end.

(** *** The effect of [useEffect] *)

Definition mount (st : State) : State :=
  set_ws (Some {| url := "ws://103.153.60.118:3002"; readyState := CONNECTING |}) st.

(** [ws.current.close()] starts the closing handshake of a socket that is
    not closed yet. *)
Definition close (socket : WebSocket) : WebSocket :=
  {| url := url socket;
     readyState := match readyState socket with CLOSED => CLOSED | _ => CLOSING end |}.

(** The cleanup the effect returns: it closes the socket and does nothing
    else. *)
Definition unmount (st : State) : State :=
  match ws st with
  | Some socket => set_ws (Some (close socket)) (log WsCloseCalled st)
  | None => st
  end.

Definition ws_onopen (st : State) : State := log (ConsoleLog "WebSocket connected") st.
Definition ws_onclose (st : State) : State := log (ConsoleLog "WebSocket disconnected") st.
Definition ws_onerror (e : JsError) (st : State) : State :=
  log (ConsoleError "WebSocket error:" (Some (ErrJs e))) st.

(** *** The transitions *)

(** What can happen to the screen.  A settling operation is named by its
    position [i] in [pending], a position callback by the id of its
    subscription. *)
Inductive Event : Type :=
| Mounted
| Unmounted
| SocketOpened
| SocketClosed
| SocketFailed (e : JsError)
| StartTrackingCalled
| StopTrackingCalled
| PermissionAnswered (i : nat) (reply : Result PermissionStatus)
| StartDeviceDataRead (i : nat) (info : DeviceInfoReply)
| CurrentPositionRead (i : nat) (position : option GeolocationPosition)
| CurrentPositionFailed (i : nat) (error : GeolocationPositionError)
| StartAddressSettled (i : nat) (r : AxiosOutcome)
| PositionDelivered (id : nat) (position : option GeolocationPosition)
| PositionFailed (id : nat) (error : GeolocationPositionError)
| WatchAddressSettled (i : nat) (r : AxiosOutcome)
| StopAddressSettled (i : nat) (r : AxiosOutcome)
| StopDeviceDataRead (i : nat) (info : DeviceInfoReply).

Definition set_readyState (r : ReadyState) (socket : WebSocket) : WebSocket :=
  {| url := url socket; readyState := r |}.

(** One transition; [None] when the event cannot happen in [st]. *)
Definition step (ev : Event) (st : State) : option State :=
  match ev with
  | Mounted => Some (mount st)
  | Unmounted => Some (unmount st)
  | SocketOpened =>
      match ws st with
      | Some socket =>
          match readyState socket with
          | CONNECTING => Some (ws_onopen (set_ws (Some (set_readyState OPEN socket)) st))
          | _ => None
          end
      | None => None
      end
  | SocketClosed =>
      match ws st with
      | Some socket =>
          match readyState socket with
          | CLOSED => None
          | _ => Some (ws_onclose (set_ws (Some (set_readyState CLOSED socket)) st))
          end
      | None => None
      end
  | SocketFailed e =>
      match ws st with
      | Some _ => Some (ws_onerror e st)
      | None => None
      end
  | StartTrackingCalled => Some (startTracking st)
  | StopTrackingCalled => Some (stopTracking st)
  | PermissionAnswered i reply =>
      match nth_error (pending st) i with
      | Some StartAwaitPermission => Some (startTracking_permission reply (settle i st))
      | _ => None
      end
  | StartDeviceDataRead i info =>
      match nth_error (pending st) i with
      | Some StartAwaitDeviceData => Some (startTracking_deviceData info (settle i st))
      | _ => None
      end
  | CurrentPositionRead i position =>
      match nth_error (pending st) i with
      | Some (CurrentPositionRequest deviceData) =>
          Some (getCurrentPosition_success deviceData position (settle i st))
      | _ => None
      end
  | CurrentPositionFailed i error =>
      match nth_error (pending st) i with
      | Some (CurrentPositionRequest deviceData) =>
          Some (getCurrentPosition_error deviceData error (settle i st))
      | _ => None
      end
  | StartAddressSettled i r =>
      match nth_error (pending st) i with
      | Some (StartAwaitAddress deviceData latitude longitude) =>
          Some (getCurrentPosition_success_address deviceData latitude longitude r
                  (settle i st))
      | _ => None
      end
  | PositionDelivered id position =>
      match find_watcher id (watchers st) with
      | Some deviceData => Some (watchPosition_success deviceData position st)
      | None => None
      end
  | PositionFailed id error =>
      match find_watcher id (watchers st) with
      | Some _ => Some (watchPosition_error error st)
      | None => None
      end
  | WatchAddressSettled i r =>
      match nth_error (pending st) i with
      | Some (WatchAwaitAddress deviceData latitude longitude) =>
          Some (watchPosition_success_address deviceData latitude longitude r
                  (settle i st))
      | _ => None
      end
  | StopAddressSettled i r =>
      match nth_error (pending st) i with
      | Some (StopAwaitAddress lastLocation) =>
          Some (stopTracking_address lastLocation r (settle i st))
      | _ => None
      end
  | StopDeviceDataRead i info =>
      match nth_error (pending st) i with
      | Some (StopAwaitDeviceData lastLocation) =>
          Some (stopTracking_deviceData lastLocation info (settle i st))
      | _ => None
      end
  end.

Fixpoint run (evs : list Event) (st : State) : option State :=
  match evs with
  | [] => Some st
  | ev :: evs' =>
      match step ev st with
      | Some st' => run evs' st'
      | None => None
      end
  end.

End Handlers.
End Tracker.

(** ** The map screen (first [RealTimeMap]) *)

Module MapScreen.

Record Location : Type := mkLocation {
  latitude : number;
  longitude : number
}.

Inductive Task : Type :=
| StartAwaitPermission
| WatchAwaitAddress.

Record State : Type := mkState {
  location : option Location;     (* useState(null) *)
  address : option string;        (* useState(''); [None] is [undefined] *)
  tracking : bool;                (* useState(false) *)
  loading : bool;                 (* useState(false) *)
  watchId : option nat;           (* watchId.current *)
  watchers : list nat;            (* live subscriptions of Geolocation *)
  nextWatchId : nat;
  pending : list Task;
  trace : list Obs
}.

Definition initial : State :=
  {| location := None; address := Some EmptyString; tracking := false; loading := false;
     watchId := None; watchers := []; nextWatchId := 0; pending := []; trace := [] |}.

Definition log (o : Obs) (st : State) : State :=
  {| location := location st; address := address st; tracking := tracking st;
     loading := loading st; watchId := watchId st; watchers := watchers st;
     nextWatchId := nextWatchId st; pending := pending st;
     trace := trace st ++ [o] |}.

Definition logs (os : list Obs) (st : State) : State :=
  fold_left (fun s o => log o s) os st.

Definition set_view (l : option Location) (a : option string) (t : bool) (st : State)
  : State :=
  {| location := l; address := a; tracking := t;
     loading := loading st; watchId := watchId st; watchers := watchers st;
     nextWatchId := nextWatchId st; pending := pending st; trace := trace st |}.

Definition set_watch (id : option nat) (w : list nat) (n : nat) (st : State) : State :=
  {| location := location st; address := address st; tracking := tracking st;
     loading := loading st; watchId := id; watchers := w;
     nextWatchId := n; pending := pending st; trace := trace st |}.

Definition set_pending (p : list Task) (st : State) : State :=
  {| location := location st; address := address st; tracking := tracking st;
     loading := loading st; watchId := watchId st; watchers := watchers st;
     nextWatchId := nextWatchId st; pending := p; trace := trace st |}.

(** [Geolocation.clearWatch(id)] *)
Definition clearWatch (id : nat) (st : State) : State :=
  set_watch (watchId st) (filter (fun w => negb (Nat.eqb w id)) (watchers st))
    (nextWatchId st) (log (ClearWatch id) st).

Section Handlers.
Context `{Platform}.

Definition startTracking (st : State) : State :=
  set_pending (pending st ++ [StartAwaitPermission])
    (match Platform_OS with
     | Android => log PermissionRequested st
     | IOS => st
     end).

Definition startTracking_permission (reply : Result PermissionStatus) (st : State) : State :=
  match requestLocationPermission reply with
  | Err e => log (ConsoleError "Error in startTracking:" (Some (ErrJs e))) st
  | Ok false => log (AlertShown "Permission Denied" "Izin mengkases lokasi dibutuhkan.") st
  | Ok true =>
      let st := set_view (location st) (address st) true st in
      set_watch (Some (nextWatchId st)) (watchers st ++ [nextWatchId st])
        (S (nextWatchId st)) st
  end.

Definition watchPosition_success (position : option GeolocationPosition) (st : State)
  : State :=
  match Tracker.bind_option position coords with
  | None => log (ConsoleError "Invalid position data" None) st
  | Some c =>
      let st :=
        set_view (Some {| latitude := coords_latitude c; longitude := coords_longitude c |})
          (address st) (tracking st) st in
      set_pending (pending st ++ [WatchAwaitAddress])
        (log (fetchAddress_request (coords_latitude c) (coords_longitude c)) st)
  end.

Definition watchPosition_success_address (r : AxiosOutcome) (st : State) : State :=
  let (logged, result) := fetchAddress_resume r in
  let st := logs logged st in
  match result with
  | Ok fetchedAddress => set_view (location st) fetchedAddress (tracking st) st
  | Err e => log (ConsoleError "Error processing position data:" (Some (ErrJs e))) st
  end.

Definition watchPosition_error (error : GeolocationPositionError) (st : State) : State :=
  log (AlertShown "Error" ("Gabisa track lokasi: " ++ message error)%string)
    (log (ConsoleError "Location Tracking Error:" (Some (ErrPosition error))) st).

Definition stopTracking (st : State) : State :=
  let st :=
    match watchId st with
    | Some id =>
        let st := clearWatch id st in
        set_watch None (watchers st) (nextWatchId st) st
    | None => st
    end in
  set_view None (Some EmptyString) false st.

(** The cleanup of [useEffect]: the subscription is cancelled; the handle
    is kept. *)
Definition unmount (st : State) : State :=
  match watchId st with
  | Some id => clearWatch id st
  | None => st
  end.

Inductive Event : Type :=
| Unmounted
| StartTrackingCalled
| StopTrackingCalled
| PermissionAnswered (i : nat) (reply : Result PermissionStatus)
| PositionDelivered (id : nat) (position : option GeolocationPosition)
| PositionFailed (id : nat) (error : GeolocationPositionError)
| AddressSettled (i : nat) (r : AxiosOutcome).

Definition settle (i : nat) (st : State) : State :=
  set_pending (Tracker.remove_nth i (pending st)) st.

Definition step (ev : Event) (st : State) : option State :=
  match ev with
  | Unmounted => Some (unmount st)
  | StartTrackingCalled => Some (startTracking st)
  | StopTrackingCalled => Some (stopTracking st)
  | PermissionAnswered i reply =>
      match nth_error (pending st) i with
      | Some StartAwaitPermission => Some (startTracking_permission reply (settle i st))
      | _ => None
      end
  | PositionDelivered id position =>
      if existsb (Nat.eqb id) (watchers st)
      then Some (watchPosition_success position st)
      else None
  | PositionFailed id error =>
      if existsb (Nat.eqb id) (watchers st)
      then Some (watchPosition_error error st)
      else None
  | AddressSettled i r =>
      match nth_error (pending st) i with
      | Some WatchAwaitAddress => Some (watchPosition_success_address r (settle i st))
      | _ => None
      end
  end.

Fixpoint run (evs : list Event) (st : State) : option State :=
  match evs with
  | [] => Some st
  | ev :: evs' =>
      match step ev st with
      | Some st' => run evs' st'
      | None => None
      end
  end.

End Handlers.
End MapScreen.

(** ** Sample inputs *)

Import Tracker.

Definition dquote : string := String (Ascii.ascii_of_nat 34) EmptyString.

(** A serializer for the sample runs: it prints the keys of an object and
    the strings they hold, which is what the lookup service puts in
    [address]. *)
Definition sample_stringify (v : Json) : string :=
  (match v with
   | JObject fields =>
       "{" ++ String.concat ","
                (map (fun kv =>
                        match snd kv with
                        | JString s => dquote ++ fst kv ++ dquote ++ ":" ++ dquote ++ s ++ dquote
                        | _ => dquote ++ fst kv ++ dquote ++ ":null"
                        end) fields) ++ "}"
   | JString s => dquote ++ s ++ dquote
   | _ => "null"
   end)%string.

Definition android : Platform :=
  {| Platform_OS := Android; JSON_stringify := sample_stringify |}.

Definition sample_device : DeviceInfoReply :=
  {| getUniqueId := Ok "a1b2c3"; getDeviceName := Ok "Pixel";
     getSystemName := "Android"; getSystemVersion := "14" |}.

Definition no_device : DeviceInfoReply :=
  {| getUniqueId := Err {| err_name := "Error"; err_message := "unavailable" |};
     getDeviceName := Ok "Pixel";
     getSystemName := "Android"; getSystemVersion := "14" |}.

Definition position_at (lat lon : number) : option GeolocationPosition :=
  Some {| coords := Some {| coords_latitude := lat; coords_longitude := lon;
                            accuracy := 5%float |};
          position_timestamp := 0%float |}.

Definition address_of (village : string) : AxiosOutcome :=
  Resolved {| status := 200;
              response_data :=
                Some (JObject [("place_id", JNumber 1%float);
                               ("address", JObject [("village", JString village)])]) |}.

Definition status_500 : AxiosOutcome :=
  Rejected {| err_name := "AxiosError";
              err_message := "Request failed with status code 500" |}.

Definition position_timeout : GeolocationPositionError :=
  {| code := 3; message := "Location request timed out" |}.

(** ** Vocabulary of the statements *)

(** The session state of the event-forwarding screen: what the component
    keeps, and the subscriptions it holds at the platform. *)
Definition same_session (a b : State) : Prop :=
  tracking a = tracking b /\ locations a = locations b /\ ws a = ws b /\
  watchId a = watchId b /\ watchers a = watchers b.

(** The operations in flight that belong to a call of [startTracking], to a
    stream callback, and to a call of [stopTracking]. *)
Definition start_task (t : Task) : bool :=
  match t with
  | StartAwaitPermission | StartAwaitDeviceData
  | CurrentPositionRequest _ | StartAwaitAddress _ _ _ => true
  | _ => false
  end.

Definition watch_task (t : Task) : bool :=
  match t with
  | WatchAwaitAddress _ _ _ => true
  | _ => false
  end.

Definition stop_task (t : Task) : bool :=
  match t with
  | StopAwaitAddress _ | StopAwaitDeviceData _ => true
  | _ => false
  end.

Definition in_flight (p : Task -> bool) (st : State) : nat :=
  List.length (filter p (pending st)).

Definition device_ok (info : DeviceInfoReply) : bool :=
  match getDeviceData info with
  | Ok _ => true
  | Err _ => false
  end.

(** The callback argument has coordinates. *)
Definition well_formed (position : option GeolocationPosition) : bool :=
  match bind_option position coords with
  | Some _ => true
  | None => false
  end.

Definition is_start_call (ev : Event) : bool :=
  match ev with
  | StartTrackingCalled => true
  | _ => false
  end.

Definition is_stop_call (ev : Event) : bool :=
  match ev with
  | StopTrackingCalled => true
  | _ => false
  end.

(** A stream callback that is not malformed. *)
Definition is_delivery (ev : Event) : bool :=
  match ev with
  | PositionDelivered _ position => well_formed position
  | _ => false
  end.

Section Outcomes.
Context `{Platform}.

Definition address_ok (r : AxiosOutcome) : bool :=
  match snd (fetchAddress_resume r) with
  | Ok _ => true
  | Err _ => false
  end.

(** The address a lookup yields ([None], the value [undefined], also when
    it fails). *)
Definition resolved_address (r : AxiosOutcome) : option string :=
  match snd (fetchAddress_resume r) with
  | Ok v => v
  | Err _ => None
  end.

Definition granted (reply : Result PermissionStatus) : bool :=
  match requestLocationPermission reply with
  | Ok true => true
  | _ => false
  end.

(** The event is not a failing step of a call of [startTracking]:
    permission is granted, the device data are read, the one-shot read
    reports an error or a position with coordinates, and the lookup of that
    position succeeds. *)
Definition start_proceeds (ev : Event) : bool :=
  match ev with
  | PermissionAnswered _ reply => granted reply
  | StartDeviceDataRead _ info => device_ok info
  | CurrentPositionRead _ position => well_formed position
  | StartAddressSettled _ r => address_ok r
  | _ => true
  end.

(** The event is not a failing lookup of a stream callback. *)
Definition watch_proceeds (ev : Event) : bool :=
  match ev with
  | WatchAddressSettled _ r => address_ok r
  | _ => true
  end.


(** The calls of [stopTracking] in a run that find [tracking] true. *)
Fixpoint effective_stops (evs : list Event) (st : State) : nat :=
  match evs with
  | [] => 0
  | ev :: evs' =>
      (if is_stop_call ev && tracking st then 1 else 0) +
      match step ev st with
      | Some st' => effective_stops evs' st'
      | None => 0
      end
  end.

(** The run in which each of the callbacks [cs] of subscription [id] is
    delivered and its lookup settles before the next one is delivered; [n]
    is the number of operations in flight meanwhile. *)
Definition in_turn (id n : nat) (cs : list (GeolocationCoordinates * AxiosOutcome))
  : list Event :=
  flat_map (fun c =>
              [PositionDelivered id
                 (Some {| coords := Some (fst c); position_timestamp := 0%float |});
               WatchAddressSettled n (snd c)]) cs.

Definition record_of (c : GeolocationCoordinates * AxiosOutcome) : Location :=
  {| latitude := coords_latitude (fst c); longitude := coords_longitude (fst c);
     timestamp := None; reverseData := resolved_address (snd c) |}.

End Outcomes.

Definition from_run (r : option State) : State :=
  match r with
  | Some st => st
  | None => initial
  end.

Definition sample_deviceData : DeviceData :=
  {| deviceId := "a1b2c3"; deviceName := "Pixel"; os := "Android 14" |}.

(** A screen that is tracking: mounted, socket open, permission granted,
    START sent for the first position, subscription 0 live. *)
Definition tracking_session : State :=
  Eval vm_compute in
    from_run (run (H := android)
                [Mounted; SocketOpened; StartTrackingCalled;
                 PermissionAnswered 0 (Ok GRANTED); StartDeviceDataRead 0 sample_device;
                 CurrentPositionRead 0 (position_at 1%float 2%float);
                 StartAddressSettled 0 (address_of "Sukamaju")] initial).

(** ** The list of the event-forwarding screen: formatAddress *)

(** What [formatAddress] needs of the runtime: [JSON.parse], and the text
    of a number in a template literal. *)
Class JsonRuntime : Type := {
  JSON_parse : string -> Result Json;
  Number_toString : number -> string
}.

(** Truthiness of a value that may be [undefined] ([None]). *)
Definition js_truthy (v : option Json) : bool :=
  match v with
  | None | Some JNull => false
  | Some (JBool b) => b
  | Some (JNumber x) => number_truthy x
  | Some (JString s) => string_truthy s
  | Some (JArray _) | Some (JObject _) => true
  end.

(** [a || b] *)
Definition js_or (a b : option Json) : option Json :=
  if js_truthy a then a else b.

(** The error [address.village] raises when [address] is [null]; the
    wording of the message is the engine's. *)
Definition TypeError_village : JsError :=
  {| err_name := "TypeError";
     err_message := "Cannot read property 'village' of null" |}.

Section FormatAddress.
Context `{JsonRuntime}.

(** The text of a value inside a template literal. *)
Fixpoint Json_toString (v : Json) : string :=
  match v with
  | JNull => "null"
  | JBool true => "true"
  | JBool false => "false"
  | JNumber x => Number_toString x
  | JString s => s
  | JArray xs =>
      String.concat ","
        (map (fun x => match x with
                       | JNull => EmptyString
                       | _ => Json_toString x
                       end) xs)
  | JObject _ => "[object Object]"
  end.

Definition template (v : option Json) : string :=
  match v with
  | None => "undefined"
  | Some x => Json_toString x
  end.

(** [formatAddress(reverseData)]: what it logs and the text it returns.
    [None] is [undefined], which [JSON.parse] reads as the text
    "undefined". *)
Definition formatAddress (reverseData : option string) : list Obs * string :=
  match JSON_parse (match reverseData with
                    | Some s => s
                    | None => "undefined"
                    end) with
  | Err error =>
      ([ConsoleError "Error formatting address:" (Some (ErrJs error))],
       "Unknown Address")
  | Ok JNull =>
      ([ConsoleError "Error formatting address:" (Some (ErrJs TypeError_village))],
       "Unknown Address")
  | Ok address =>
      ([],
       (template (js_or (js_or (get_property address "village")
                               (get_property address "municipality"))
                        (get_property address "county"))
        ++ ", " ++
        template (js_or (js_or (get_property address "municipality")
                               (get_property address "county"))
                        (get_property address "state")))%string)
  end.

End FormatAddress.

(** ** getLocationDetails (file of the map screen) *)

Module LocationDetails.

Inductive Effect : Type :=
| Console (o : Obs)
| SetLocation (location : string)
| GetCurrentPosition (enableHighAccuracy : bool) (timeout maximumAge : N).

(** Which callback of [Geolocation.getCurrentPosition] is called. *)
Inductive PositionOutcome : Type :=
| PositionRead (position : option GeolocationPosition)
| PositionError (error : GeolocationPositionError).

(** How the promise the function returns ends: with a value ([None] is
    [null]), or never, when the success callback throws before it
    resolves. *)
Inductive Settlement : Type :=
| Returns (value : option MapScreen.Location)
| NeverSettles.

Definition error_message (code : nat) : string :=
  let message := "Failed to get location." in
  match code with
  | 1 => "Permission denied."
  | 2 => "Location unavailable."
  | 3 => "Location request timed out."
  | _ => "An unknown error occurred."
  end.

Section Details.
Context `{Platform}.

Definition getLocationDetails (reply : Result PermissionStatus) (read : PositionOutcome)
  : list Effect * Settlement :=
  let asked :=
    match Platform_OS with
    | Android => [Console PermissionRequested]
    | IOS => []
    end in
  match requestLocationPermission reply with
  | Err error =>
      (asked ++ [Console (ConsoleError "Error in getLocationDetails:"
                            (Some (ErrJs error)));
                 SetLocation "An unexpected error occurred."],
       Returns None)
  | Ok false => (asked ++ [SetLocation "Permission denied"], Returns None)
  | Ok true =>
      let requested := asked ++ [GetCurrentPosition true 15000 10000] in
      match read with
      | PositionRead position =>
          match Tracker.bind_option position coords with
          | Some c =>
              (requested,
               Returns (Some {| MapScreen.latitude := coords_latitude c;
                                MapScreen.longitude := coords_longitude c |}))
          | None => (requested, NeverSettles)
          end
      | PositionError error =>
          (requested ++
           [Console (ConsoleError "Error fetching location:" (Some (ErrPosition error)));
            SetLocation (error_message (code error))],
           Returns None)
      end
  end.

End Details.

(** The messages handed to [setLocation], in order. *)
Fixpoint shown (es : list Effect) : list string :=
  match es with
  | [] => []
  | SetLocation m :: es' => m :: shown es'
  | _ :: es' => shown es'
  end.

(** The position reads requested. *)
Fixpoint reads (es : list Effect) : nat :=
  match es with
  | [] => 0
  | GetCurrentPosition _ _ _ :: es' => S (reads es')
  | _ :: es' => reads es'
  end.

End LocationDetails.

(** ** Vocabulary of the further statements *)

Definition is_mount (ev : Event) : bool :=
  match ev with
  | Mounted => true
  | _ => false
  end.

Definition is_socket_open (ev : Event) : bool :=
  match ev with
  | SocketOpened => true
  | _ => false
  end.

(** The event leaves an open socket open. *)
Definition keeps_socket (ev : Event) : bool :=
  match ev with
  | Mounted | Unmounted | SocketClosed => false
  | _ => true
  end.

(** No socket, or one that is closing or closed. *)
Definition shut (st : State) : bool :=
  match ws st with
  | None => true
  | Some socket =>
      match readyState socket with
      | CLOSING | CLOSED => true
      | _ => false
      end
  end.

(** What holds of every message built by [sendLocationEvent]. *)
Definition well_formed_payload (p : Payload) : Prop :=
  event p = "locationUpdate" /\
  data_reverseData (data p) <> EmptyString /\
  (forall x, data_latitude (data p) = Some x -> number_truthy x = true) /\
  (forall x, data_longitude (data p) = Some x -> number_truthy x = true).


Definition place (l : Location) : number * number * option string :=
  (latitude l, longitude l, timestamp l).

(** A subscription that is live and that the handle does not name. *)
Definition orphan (id : nat) (d : DeviceData) (st : State) : Prop :=
  find_watcher id (watchers st) = Some d /\
  watchId st <> Some id /\
  id < nextWatchId st.

(** A runtime for the sample runs: it reads back the documents of
    [sample_documents] as [sample_stringify] prints them, and nothing
    else. *)
Definition sample_documents : list Json :=
  [JObject [("village", JString "Sukamaju"); ("municipality", JString "Cibiru");
            ("county", JString "Bandung"); ("state", JString "Jawa Barat")];
   JObject [("city", JString "Bandung"); ("state", JString "Jawa Barat")];
   JNull].

Definition sample_parse (s : string) : Result Json :=
  match find (fun v => String.eqb (sample_stringify v) s) sample_documents with
  | Some v => Ok v
  | None => Err {| err_name := "SyntaxError"; err_message := "JSON Parse error" |}
  end.

Definition sample_runtime : JsonRuntime :=
  {| JSON_parse := sample_parse; Number_toString := fun _ => "0" |}.

(** Two calls of [startTracking] have run to the opening of their
    subscriptions: the handle names the second one. *)
Definition lost_session : State :=
  Eval vm_compute in
    from_run (run (H := android)
                [StartTrackingCalled; PermissionAnswered 0 (Ok GRANTED);
                 StartDeviceDataRead 0 sample_device;
                 StartTrackingCalled; PermissionAnswered 1 (Ok GRANTED);
                 StartDeviceDataRead 1 sample_device] initial).

(** [startTracking] waits for the device data. *)
Definition awaiting_device : State :=
  Eval vm_compute in
    from_run (run (H := android)
                [StartTrackingCalled; PermissionAnswered 0 (Ok GRANTED)] initial).

(** [startTracking] waits for the address of the first position. *)
Definition awaiting_first_address : State :=
  Eval vm_compute in
    from_run (run (H := android)
                [StartTrackingCalled; PermissionAnswered 0 (Ok GRANTED);
                 StartDeviceDataRead 0 sample_device;
                 CurrentPositionRead 0 (position_at 1%float 2%float)] initial).

(** An answer of the lookup service that has no [address]. *)
Definition answer_without_address : AxiosResponse :=
  {| status := 200;
     response_data := Some (JObject [("error", JString "Unable to geocode")]) |}.

(** An answer whose [address] is the first of [sample_documents]. *)
Definition answer_with_village : AxiosResponse :=
  {| status := 200;
     response_data :=
       Some (JObject
               [("address",
                 JObject [("village", JString "Sukamaju");
                          ("municipality", JString "Cibiru");
                          ("county", JString "Bandung");
                          ("state", JString "Jawa Barat")])]) |}.

(** A session in which one position was recorded, at (3, 4), for which the
    lookup service had no address. *)
Definition recorded_session : State :=
  Eval vm_compute in
    from_run (run (H := android)
                [PositionDelivered 0 (position_at 3%float 4%float);
                 WatchAddressSettled 0 (Resolved answer_without_address)]
                tracking_session).

(** The map screen, tracking. *)
Definition map_tracking : MapScreen.State :=
  Eval vm_compute in
    match MapScreen.run (H := android)
            [MapScreen.StartTrackingCalled; MapScreen.PermissionAnswered 0 (Ok GRANTED)]
            MapScreen.initial with
    | Some m => m
    | None => MapScreen.initial
    end.

(** ** Projections of the trace *)

Lemma emitted_app (a b : list Obs) : emitted (a ++ b) = emitted a ++ emitted b.
Proof.
  induction a as [|o a IH]; simpl; [reflexivity|].
  destruct o; simpl; rewrite IH; reflexivity.
Qed.

Lemma transmitted_app (a b : list Obs) :
  transmitted (a ++ b) = transmitted a ++ transmitted b.
Proof.
  induction a as [|o a IH]; simpl; [reflexivity|].
  destruct o; simpl; rewrite IH; reflexivity.
Qed.

Lemma requests_app (a b : list Obs) : requests (a ++ b) = requests a ++ requests b.
Proof.
  induction a as [|o a IH]; simpl; [reflexivity|].
  destruct o; simpl; rewrite IH; reflexivity.
Qed.

Lemma emittedOf_app (k : EventType) (a b : list Obs) :
  emittedOf k (a ++ b) = emittedOf k a + emittedOf k b.
Proof.
  unfold emittedOf. rewrite emitted_app, filter_app, length_app. reflexivity.
Qed.

Lemma logs_cons (o : Obs) (os : list Obs) (st : State) :
  logs (o :: os) st = logs os (log o st).
Proof. reflexivity. Qed.

Lemma trace_logs (os : list Obs) (st : State) : trace (logs os st) = trace st ++ os.
Proof.
  revert st. induction os as [|o os IH]; intros st.
  - simpl. now rewrite app_nil_r.
  - rewrite logs_cons, IH. simpl. now rewrite <- app_assoc.
Qed.

(** [logs] touches the trace only. *)
Lemma frame_logs (os : list Obs) (st : State) :
  tracking (logs os st) = tracking st /\ locations (logs os st) = locations st /\
  ws (logs os st) = ws st /\ watchId (logs os st) = watchId st /\
  watchers (logs os st) = watchers st /\ nextWatchId (logs os st) = nextWatchId st /\
  pending (logs os st) = pending st.
Proof.
  revert st. induction os as [|o os IH]; intros st; [simpl; tauto|].
  rewrite logs_cons. destruct (IH (log o st)) as (a & b & c & d & e & f & g).
  rewrite a, b, c, d, e, f, g. simpl. tauto.
Qed.

(** ** sendLocationEvent *)

Lemma trace_sendLocationEvent (k : EventType) (d : DeviceData) (l : option Location)
    (st : State) :
  trace (sendLocationEvent k d l st) =
  trace st ++ [ConsoleLogPayload "Sending payload:" (make_payload k d l);
               if is_open (ws st) then WsSend (make_payload k d l)
               else ConsoleLog "WebSocket is not open."].
Proof.
  unfold sendLocationEvent. simpl.
  destruct (is_open (ws st)); simpl; now rewrite <- app_assoc.
Qed.

(** [sendLocationEvent] touches the trace only. *)
Lemma frame_sendLocationEvent (k : EventType) (d : DeviceData) (l : option Location)
    (st : State) :
  tracking (sendLocationEvent k d l st) = tracking st /\
  locations (sendLocationEvent k d l st) = locations st /\
  ws (sendLocationEvent k d l st) = ws st /\
  watchId (sendLocationEvent k d l st) = watchId st /\
  watchers (sendLocationEvent k d l st) = watchers st /\
  nextWatchId (sendLocationEvent k d l st) = nextWatchId st /\
  pending (sendLocationEvent k d l st) = pending st.
Proof.
  unfold sendLocationEvent. simpl. destruct (is_open (ws st)); simpl; tauto.
Qed.

(** C5.  When the socket is missing or not in the OPEN state,
    [sendLocationEvent] writes no frame: it logs the payload and the notice
    that the socket is not open, and leaves the rest of the state, the
    operations in flight among it, as it was, so nothing is kept for a later
    attempt. *)
Theorem sendLocationEvent_not_open_drops (k : EventType) (d : DeviceData)
    (l : option Location) (st : State) :
  is_open (ws st) = false ->
  transmitted (trace (sendLocationEvent k d l st)) = transmitted (trace st) /\
  trace (sendLocationEvent k d l st) =
    trace st ++ [ConsoleLogPayload "Sending payload:" (make_payload k d l);
                 ConsoleLog "WebSocket is not open."] /\
  pending (sendLocationEvent k d l st) = pending st /\
  tracking (sendLocationEvent k d l st) = tracking st /\
  locations (sendLocationEvent k d l st) = locations st /\
  ws (sendLocationEvent k d l st) = ws st /\
  watchId (sendLocationEvent k d l st) = watchId st /\
  watchers (sendLocationEvent k d l st) = watchers st.
Proof.
  intros Hclosed.
  pose proof (frame_sendLocationEvent k d l st) as (a & b & c & e & f & _ & g).
  rewrite trace_sendLocationEvent, Hclosed, transmitted_app. simpl.
  rewrite app_nil_r. tauto.
Qed.

Lemma sendLocationEvent_not_open_drops_witness :
  transmitted (trace (sendLocationEvent ONGOING (mkDeviceData "a1b2c3" "Pixel" "Android 14")
                        (Some unknownLocation) initial)) = [].
Proof.
  exact (proj1 (sendLocationEvent_not_open_drops ONGOING
                  (mkDeviceData "a1b2c3" "Pixel" "Android 14")
                  (Some unknownLocation) initial eq_refl)).
Defined.

Lemma emitted_sendLocationEvent (k : EventType) (d : DeviceData) (l : option Location)
    (st : State) :
  emitted (trace (sendLocationEvent k d l st)) =
  emitted (trace st) ++ [make_payload k d l].
Proof.
  rewrite trace_sendLocationEvent, emitted_app. simpl.
  destruct (is_open (ws st)); reflexivity.
Qed.

Lemma transmitted_sendLocationEvent (k : EventType) (d : DeviceData)
    (l : option Location) (st : State) :
  transmitted (trace (sendLocationEvent k d l st)) =
  transmitted (trace st) ++ (if is_open (ws st) then [make_payload k d l] else []).
Proof.
  rewrite trace_sendLocationEvent, transmitted_app. simpl.
  destruct (is_open (ws st)); reflexivity.
Qed.

(** C10.  The payload [sendLocationEvent] logs, and sends when the socket is
    open, has [latitude] null when the location is null or its latitude is
    zero, the same for [longitude], and [reverseData] "Unknown" when the
    location's is the empty string.  The START event of the error callback of
    the one-shot read therefore carries null for both coordinates. *)
Theorem sendLocationEvent_falsy_fields_become_null (k : EventType) (d : DeviceData)
    (l : option Location) (st : State) (error : GeolocationPositionError) :
  emitted (trace (sendLocationEvent k d l st)) =
    emitted (trace st) ++ [make_payload k d l] /\
  transmitted (trace (sendLocationEvent k d l st)) =
    transmitted (trace st) ++ (if is_open (ws st) then [make_payload k d l] else []) /\
  (l = None \/ (exists loc, l = Some loc /\ (latitude loc =? 0)%float = true) ->
   data_latitude (data (make_payload k d l)) = None) /\
  (l = None \/ (exists loc, l = Some loc /\ (longitude loc =? 0)%float = true) ->
   data_longitude (data (make_payload k d l)) = None) /\
  (l = None \/ (exists loc, l = Some loc /\ reverseData loc = Some EmptyString) ->
   data_reverseData (data (make_payload k d l)) = "Unknown") /\
  (exists p,
     emitted (trace (getCurrentPosition_error d error st)) = emitted (trace st) ++ [p] /\
     eventType (data p) = START /\
     data_latitude (data p) = None /\ data_longitude (data p) = None /\
     data_reverseData (data p) = "Unknown").
Proof.
  split; [apply emitted_sendLocationEvent|].
  split; [apply transmitted_sendLocationEvent|].
  repeat split.
  - intros [-> | (loc & -> & Hz)]; [reflexivity|].
    simpl. unfold number_truthy, is_zero. change zero with 0%float.
    now rewrite Hz.
  - intros [-> | (loc & -> & Hz)]; [reflexivity|].
    simpl. unfold number_truthy, is_zero. change zero with 0%float.
    now rewrite Hz.
  - intros [-> | (loc & -> & Hz)]; [reflexivity|].
    simpl. now rewrite Hz.
  - eexists. split.
    + unfold getCurrentPosition_error. rewrite emitted_sendLocationEvent.
      simpl. rewrite emitted_app. simpl. rewrite app_nil_r. reflexivity.
    + repeat split; reflexivity.
Qed.

Lemma sendLocationEvent_falsy_fields_become_null_witness :
  data_latitude (data (make_payload FINISH (mkDeviceData "a1b2c3" "Pixel" "Android 14")
                         (Some unknownLocation))) = None /\
  data_longitude (data (make_payload FINISH (mkDeviceData "a1b2c3" "Pixel" "Android 14")
                          (Some unknownLocation))) = None /\
  data_reverseData
    (data (make_payload ONGOING (mkDeviceData "a1b2c3" "Pixel" "Android 14")
             (Some (mkLocation 1%float 2%float None (Some EmptyString))))) = "Unknown".
Proof.
  pose (d := mkDeviceData "a1b2c3" "Pixel" "Android 14").
  split; [|split].
  - apply (proj1 (proj2 (proj2
      (sendLocationEvent_falsy_fields_become_null FINISH d (Some unknownLocation)
         initial position_timeout)))).
    right. exists unknownLocation. split; reflexivity.
  - apply (proj1 (proj2 (proj2 (proj2
      (sendLocationEvent_falsy_fields_become_null FINISH d (Some unknownLocation)
         initial position_timeout))))).
    right. exists unknownLocation. split; reflexivity.
  - apply (proj1 (proj2 (proj2 (proj2 (proj2
      (sendLocationEvent_falsy_fields_become_null ONGOING d
         (Some (mkLocation 1%float 2%float None (Some EmptyString)))
         initial position_timeout)))))).
    right. eexists. split; reflexivity.
Defined.

(** ** fetchAddress *)

Section FetchAddressFacts.
Context `{Platform}.

(** A failing [fetchAddress] has logged its error, once. *)
Lemma fetchAddress_resume_failure (r : AxiosOutcome) (logged : list Obs) (e : JsError) :
  fetchAddress_resume r = (logged, Err e) ->
  logged = [ConsoleError "Error fetching address:" (Some (ErrJs e))].
Proof.
  destruct r as [response | e']; simpl.
  - destruct (response_data response) as [[]|]; intros [= <- <-]; reflexivity.
  - intros [= <- <-]. reflexivity.
Qed.

(** A successful [fetchAddress] has logged nothing. *)
Lemma fetchAddress_resume_success (r : AxiosOutcome) (logged : list Obs)
    (v : option string) :
  fetchAddress_resume r = (logged, Ok v) -> logged = [].
Proof.
  destruct r as [response | e']; simpl.
  - destruct (response_data response) as [[]|]; intros [= <- ?]; reflexivity.
  - intros [= ]. 
Qed.

End FetchAddressFacts.


(** ** stopTracking while idle *)

(** C4.  [stopTracking] called with [tracking] false logs that tracking is
    not active and returns: no event is handed to [sendLocationEvent], no
    frame is written, and the handle, the history, the flag, the
    subscriptions and the operations in flight are unchanged. *)
Theorem stopTracking_idle_is_noop (st : State) :
  tracking st = false ->
  same_session (stopTracking st) st /\
  pending (stopTracking st) = pending st /\
  emitted (trace (stopTracking st)) = emitted (trace st) /\
  transmitted (trace (stopTracking st)) = transmitted (trace st) /\
  trace (stopTracking st) = trace st ++ [ConsoleLog "Tracking is not active."].
Proof.
  intros Hidle. unfold stopTracking, same_session. rewrite Hidle. simpl.
  rewrite emitted_app, transmitted_app. simpl. rewrite !app_nil_r. tauto.
Qed.

Lemma stopTracking_idle_is_noop_witness :
  same_session (stopTracking initial) initial /\
  emitted (trace (stopTracking initial)) = [].
Proof.
  pose proof (stopTracking_idle_is_noop initial eq_refl) as (Hs & _ & He & _).
  split; [exact Hs | exact He].
Defined.

(** ** The stream callback when the lookup fails *)

Section WatchFailure.
Context `{Platform}.

(** C9.  A stream callback whose [fetchAddress] throws changes no session
    state.  Up to the [await] it only issues the request; when the lookup
    then fails, in whatever state the screen is by then, the continuation
    appends nothing to [locations], hands nothing to [sendLocationEvent] and
    only logs the error (once in [fetchAddress], once in the callback). *)
Theorem watch_callback_lookup_failure_changes_nothing
    (d : DeviceData) (position : option GeolocationPosition)
    (c : GeolocationCoordinates) (r : AxiosOutcome) (logged : list Obs) (e : JsError)
    (st st' : State) (i : nat) :
  bind_option position coords = Some c ->
  fetchAddress_resume r = (logged, Err e) ->
  nth_error (pending st') i =
    Some (WatchAwaitAddress d (coords_latitude c) (coords_longitude c)) ->
  (same_session (watchPosition_success d position st) st /\
   emitted (trace (watchPosition_success d position st)) = emitted (trace st) /\
   pending (watchPosition_success d position st) =
     pending st ++ [WatchAwaitAddress d (coords_latitude c) (coords_longitude c)]) /\
  (exists st'',
     step (WatchAddressSettled i r) st' = Some st'' /\
     same_session st'' st' /\
     emitted (trace st'') = emitted (trace st') /\
     transmitted (trace st'') = transmitted (trace st') /\
     trace st'' =
       trace st' ++ [ConsoleError "Error fetching address:" (Some (ErrJs e));
                     ConsoleError "Error processing position data:" (Some (ErrJs e))] /\
     pending st'' = remove_nth i (pending st')).
Proof.
  intros Hcoords Hfail Hpending. split.
  - unfold watchPosition_success, same_session. rewrite Hcoords. simpl.
    rewrite emitted_app. simpl. rewrite app_nil_r. tauto.
  - eexists. split.
    + simpl. rewrite Hpending. reflexivity.
    + unfold watchPosition_success_address, same_session. rewrite Hfail.
      rewrite (fetchAddress_resume_failure _ _ _ Hfail). simpl.
      rewrite <- !app_assoc, !emitted_app, !transmitted_app. simpl.
      rewrite !app_nil_r. tauto.
Qed.

End WatchFailure.

Lemma watch_callback_lookup_failure_changes_nothing_witness :
  exists st'',
    step (H := android) (WatchAddressSettled 0 status_500)
      (watchPosition_success sample_deviceData (position_at 3%float 4%float)
         tracking_session) = Some st'' /\
    locations st'' = [] /\
    emitted (trace st'') = emitted (trace tracking_session).
Proof.
  destruct (watch_callback_lookup_failure_changes_nothing (H := android)
              sample_deviceData (position_at 3%float 4%float)
              (mkCoords 3%float 4%float 5%float) status_500 _ _
              tracking_session
              (watchPosition_success sample_deviceData (position_at 3%float 4%float)
                 tracking_session)
              0 eq_refl eq_refl eq_refl)
    as [(_ & He1 & _) (st'' & Hstep & (_ & Hl & _) & He2 & _)].
  exists st''. split; [exact Hstep|]. split.
  - rewrite Hl. reflexivity.
  - rewrite He2. exact He1.
Defined.

(** ** The START event after a failed one-shot read *)

(** C7, at the failing input.  Permission is granted, the device data are
    read and the one-shot read times out.  The session goes on ([tracking]
    is true, the subscription is live) and one START event is sent with the
    address "Unknown", but its coordinates are null and not (0, 0): the
    zeros the error callback passes are falsy for the [||] of
    [sendLocationEvent]. *)
Theorem failed_read_START_carries_null_coordinates :
  exists st p,
    run (H := android)
      [Mounted; SocketOpened; StartTrackingCalled; PermissionAnswered 0 (Ok GRANTED);
       StartDeviceDataRead 0 sample_device; CurrentPositionFailed 0 position_timeout]
      initial = Some st /\
    tracking st = true /\ watchers st = [(0, sample_deviceData)] /\
    emitted (trace st) = [p] /\ transmitted (trace st) = [p] /\
    eventType (data p) = START /\
    data_reverseData (data p) = "Unknown" /\
    data_latitude (data p) = None /\ data_longitude (data p) = None /\
    data_latitude (data p) <> Some 0%float /\ data_longitude (data p) <> Some 0%float.
Proof.
  do 2 eexists. split; [vm_compute; reflexivity|].
  repeat split; try reflexivity; discriminate.
Qed.

(** ** Teardown *)

Lemma filter_idempotent {A : Type} (f : A -> bool) (l : list A) :
  filter f (filter f l) = filter f l.
Proof.
  induction l as [|x l IH]; simpl; [reflexivity|].
  destruct (f x) eqn:Hx; simpl; [rewrite Hx, IH|]; auto.
Qed.

(** C8, on both screens.  The cleanup of the map screen cancels the
    subscription its handle names, a second cleanup changes no
    subscription, and no event is sent.  The cleanup of the event-forwarding
    screen only closes the socket: it sends no event either, but it leaves
    every subscription live, so that a position callback can still be
    delivered after teardown. *)
Theorem teardown_cancels_on_map_screen_only (m : MapScreen.State) (st : State) :
  (MapScreen.trace (MapScreen.unmount m) =
     MapScreen.trace m ++
     match MapScreen.watchId m with Some id => [ClearWatch id] | None => [] end /\
   MapScreen.watchers (MapScreen.unmount m) =
     match MapScreen.watchId m with
     | Some id => filter (fun w => negb (Nat.eqb w id)) (MapScreen.watchers m)
     | None => MapScreen.watchers m
     end /\
   MapScreen.watchers (MapScreen.unmount (MapScreen.unmount m)) =
     MapScreen.watchers (MapScreen.unmount m) /\
   emitted (MapScreen.trace (MapScreen.unmount m)) = emitted (MapScreen.trace m)) /\
  (trace (unmount st) =
     trace st ++ match ws st with Some _ => [WsCloseCalled] | None => [] end /\
   watchers (unmount st) = watchers st /\
   watchId (unmount st) = watchId st /\
   emitted (trace (unmount st)) = emitted (trace st)) /\
  (exists st',
     run (H := android) [Unmounted; PositionDelivered 0 (position_at 3%float 4%float)]
       tracking_session = Some st' /\
     watchId st' = Some 0 /\ watchers st' = [(0, sample_deviceData)] /\
     requests (trace st') =
       requests (trace tracking_session) ++
       [(reverseGeocodeApi, "/reverse",
         [("format", PString "jsonv2"); ("lat", PNumber 3%float);
          ("lon", PNumber 4%float)])]).
Proof.
  split; [|split].
  - unfold MapScreen.unmount.
    destruct (MapScreen.watchId m) as [id|] eqn:Hid; simpl.
    + rewrite Hid. simpl. rewrite filter_idempotent, emitted_app. simpl.
      rewrite app_nil_r. tauto.
    + rewrite Hid, app_nil_r. tauto.
  - unfold unmount. destruct (ws st); simpl.
    + rewrite emitted_app. simpl. rewrite app_nil_r. tauto.
    + rewrite app_nil_r. tauto.
  - eexists. split; [vm_compute; reflexivity|].
    repeat split; reflexivity.
Qed.

(** ** Accounting of events and operations in flight

    For each of the three kinds of event, every transition keeps the balance
    between the events sent, the operations in flight that lead to one, and
    the calls that started them. *)

Lemma filter_remove_nth {A : Type} (p : A -> bool) (l : list A) (i : nat) (t : A) :
  nth_error l i = Some t ->
  List.length (filter p l) =
  List.length (filter p (remove_nth i l)) + (if p t then 1 else 0).
Proof.
  revert i. induction l as [|x l IH]; intros [|i] Hnth; simpl in *; try discriminate.
  - injection Hnth as ->. destruct (p t); simpl; lia.
  - specialize (IH _ Hnth). destruct (p x); simpl; lia.
Qed.

Lemma in_flight_settle (p : Task -> bool) (st : State) (i : nat) (t : Task) :
  nth_error (pending st) i = Some t ->
  in_flight p st = in_flight p (settle i st) + (if p t then 1 else 0).
Proof. intros Hnth. unfold in_flight. simpl. now apply filter_remove_nth. Qed.

Lemma length_update_nth {A : Type} (i : nat) (f : A -> A) (l : list A) :
  List.length (update_nth i f l) = List.length l.
Proof.
  revert i. induction l as [|x l IH]; intros [|i]; simpl; auto.
Qed.

(** Opens [step ev st = Some st'] into the handler that ran. *)
Ltac open_step Hstep :=
  simpl in Hstep;
  repeat match type of Hstep with
         | context [match nth_error ?l ?i with _ => _ end] =>
             destruct (nth_error l i) as [[]|] eqn:?; try discriminate
         | context [match find_watcher ?i ?l with _ => _ end] =>
             destruct (find_watcher i l) eqn:?; try discriminate
         | context [match ws ?s with _ => _ end] =>
             destruct (ws s) eqn:?; try discriminate
         | context [match readyState ?s with _ => _ end] =>
             destruct (readyState s) eqn:?; try discriminate
         end;
  injection Hstep as <-.

(** Records what settling the operation did to the count of [p]. *)
Ltac settle_with p :=
  try match goal with
  | Hnth : nth_error (pending ?st) ?i = Some _ |- _ =>
      let E := fresh "E" in
      pose proof (in_flight_settle p st i _ Hnth) as E;
      unfold in_flight in E; simpl in E
  end.

(** Splits on how a lookup settled, with what it logged made explicit. *)
Ltac resolve_address :=
  try match goal with
  | |- context [fetchAddress_resume ?r] =>
      let Hres := fresh "Hres" in
      destruct (fetchAddress_resume r) as [? [?|?]] eqn:Hres;
      [ pose proof (fetchAddress_resume_success _ _ _ Hres)
      | pose proof (fetchAddress_resume_failure _ _ _ Hres) ];
      subst
  end.

Ltac unfold_handlers :=
  unfold startTracking, startTracking_permission, startTracking_deviceData,
    getCurrentPosition_success, getCurrentPosition_success_address,
    getCurrentPosition_error, watchPosition_success, watchPosition_success_address,
    watchPosition_error, stopTracking, stopTracking_address, stopTracking_deviceData,
    mount, unmount, ws_onopen, ws_onclose, ws_onerror, watchPosition, clearWatch,
    assign_store, assign_ref, sendLocationEvent, await, in_flight.

(** Runs a handler through all its branches and closes the arithmetic. *)
Ltac crunch :=
  unfold_handlers;
  resolve_address;
  repeat (simpl;
    match goal with
    | |- context [match ?x with _ => _ end] => destruct x eqn:?
    | |- context [if ?x then _ else _] => destruct x eqn:?
    end; try discriminate);
  simpl; intros;
  unfold emittedOf;
  repeat (rewrite ?emitted_app, ?filter_app, ?length_app, ?length_update_nth; simpl);
  try lia.

Section Accounting.
Context `{Platform}.

Lemma step_start_accounting (ev : Event) (st st' : State) :
  step ev st = Some st' ->
  start_proceeds ev = true ->
  emittedOf START (trace st') + in_flight start_task st' =
  emittedOf START (trace st) + in_flight start_task st +
  (if is_start_call ev then 1 else 0).
Proof.
  intros Hstep Hok.
  destruct ev; open_step Hstep; settle_with start_task;
    unfold start_proceeds, granted, device_ok, well_formed, address_ok in Hok;
    revert Hok; crunch.
Qed.

Lemma step_watch_accounting (ev : Event) (st st' : State) :
  step ev st = Some st' ->
  watch_proceeds ev = true ->
  emittedOf ONGOING (trace st') + in_flight watch_task st' =
    emittedOf ONGOING (trace st) + in_flight watch_task st +
    (if is_delivery ev then 1 else 0) /\
  List.length (locations st') + in_flight watch_task st' =
    List.length (locations st) + in_flight watch_task st +
    (if is_delivery ev then 1 else 0).
Proof.
  intros Hstep Hok.
  destruct ev; open_step Hstep; settle_with watch_task;
    unfold watch_proceeds, is_delivery, well_formed, address_ok in *;
    revert Hok; crunch.
Qed.


End Accounting.

Section Runs.
Context `{Platform}.

Lemma run_app (a b : list Event) (st : State) :
  run (a ++ b) st =
  match run a st with
  | Some st' => run b st'
  | None => None
  end.
Proof.
  revert st. induction a as [|ev a IH]; intros st; simpl; [reflexivity|].
  destruct (step ev st); [apply IH | reflexivity].
Qed.

Lemma run_start_accounting (evs : list Event) (st st' : State) :
  run evs st = Some st' ->
  forallb start_proceeds evs = true ->
  emittedOf START (trace st') + in_flight start_task st' =
  emittedOf START (trace st) + in_flight start_task st +
  List.length (filter is_start_call evs).
Proof.
  revert st. induction evs as [|ev evs IH]; intros st Hrun Hok; simpl in *.
  - injection Hrun as <-. lia.
  - apply andb_prop in Hok as [Hev Hevs].
    destruct (step ev st) as [st1|] eqn:Hstep; [|discriminate].
    specialize (IH _ Hrun Hevs).
    pose proof (step_start_accounting _ _ _ Hstep Hev) as Hone.
    destruct (is_start_call ev); simpl; lia.
Qed.

Lemma run_watch_accounting (evs : list Event) (st st' : State) :
  run evs st = Some st' ->
  forallb watch_proceeds evs = true ->
  emittedOf ONGOING (trace st') + in_flight watch_task st' =
    emittedOf ONGOING (trace st) + in_flight watch_task st +
    List.length (filter is_delivery evs) /\
  List.length (locations st') + in_flight watch_task st' =
    List.length (locations st) + in_flight watch_task st +
    List.length (filter is_delivery evs).
Proof.
  revert st. induction evs as [|ev evs IH]; intros st Hrun Hok; simpl in *.
  - injection Hrun as <-. lia.
  - apply andb_prop in Hok as [Hev Hevs].
    destruct (step ev st) as [st1|] eqn:Hstep; [|discriminate].
    specialize (IH _ Hrun Hevs).
    pose proof (step_watch_accounting _ _ _ Hstep Hev) as Hone.
    destruct (is_delivery ev); simpl; lia.
Qed.


End Runs.

(** ** startTracking *)

Section StartTracking.
Context `{Platform}.

(** The device data cannot be read: [startTracking] ends in its [catch]. *)
Lemma startTracking_deviceData_failure (st : State) (i : nat) (info : DeviceInfoReply) :
  nth_error (pending st) i = Some StartAwaitDeviceData ->
  device_ok info = false ->
  exists st',
    step (StartDeviceDataRead i info) st = Some st' /\
    same_session st' st /\
    pending st' = remove_nth i (pending st) /\
    emitted (trace st') = emitted (trace st).
Proof.
  intros Hnth Hfail. eexists. split.
  - simpl. rewrite Hnth. reflexivity.
  - unfold startTracking_deviceData, device_ok, same_session in *.
    destruct (getDeviceData info); [discriminate|]. simpl.
    rewrite emitted_app. simpl. rewrite app_nil_r. tauto.
Qed.

(** C1, as the code has it.  When the permission is granted [tracking]
    becomes true.  In every run in which no step of a call of
    [startTracking] fails (permission granted, device data read, the one-shot
    read reports an error or a position with coordinates whose lookup
    succeeds), between two states with no such call in progress, the START
    events sent are as many as the calls: one for each.  When the device
    data cannot be read the call ends there and sends nothing.  Nothing
    orders START and ONGOING events. *)
Theorem startTracking_tracks_and_sends_one_START :
  (forall (st : State) (i : nat) (reply : Result PermissionStatus),
     nth_error (pending st) i = Some StartAwaitPermission ->
     granted reply = true ->
     exists st',
       step (PermissionAnswered i reply) st = Some st' /\
       tracking st' = true /\
       emitted (trace st') = emitted (trace st)) /\
  (forall (evs : list Event) (st st' : State),
     run evs st = Some st' ->
     forallb start_proceeds evs = true ->
     in_flight start_task st = 0 ->
     in_flight start_task st' = 0 ->
     emittedOf START (trace st') =
     emittedOf START (trace st) + List.length (filter is_start_call evs)) /\
  (forall (st : State) (i : nat) (info : DeviceInfoReply),
     nth_error (pending st) i = Some StartAwaitDeviceData ->
     device_ok info = false ->
     exists st',
       step (StartDeviceDataRead i info) st = Some st' /\
       same_session st' st /\
       pending st' = remove_nth i (pending st) /\
       emitted (trace st') = emitted (trace st)).
Proof.
  split; [|split].
  - intros st i reply Hnth Hgranted. eexists. split.
    + simpl. rewrite Hnth. reflexivity.
    + unfold startTracking_permission, granted in *.
      destruct (requestLocationPermission reply) as [[|]|]; try discriminate.
      simpl. split; reflexivity.
  - intros evs st st' Hrun Hok Hbefore Hafter.
    pose proof (run_start_accounting _ _ _ Hrun Hok). lia.
  - exact startTracking_deviceData_failure.
Qed.

End StartTracking.

Lemma startTracking_tracks_and_sends_one_START_witness :
  emittedOf START (trace tracking_session) = 1 /\ tracking tracking_session = true.
Proof.
  pose proof (proj1 (proj2 (startTracking_tracks_and_sends_one_START (H := android)))
                [Mounted; SocketOpened; StartTrackingCalled;
                 PermissionAnswered 0 (Ok GRANTED); StartDeviceDataRead 0 sample_device;
                 CurrentPositionRead 0 (position_at 1%float 2%float);
                 StartAddressSettled 0 (address_of "Sukamaju")]
                initial tracking_session eq_refl eq_refl eq_refl eq_refl) as Hone.
  split; [exact Hone | reflexivity].
Defined.

(** C1 as stated fails.  An ONGOING event is sent before the START event
    when the lookup of a stream callback settles before the one-shot read
    does; and no START event is sent at all, with [tracking] true and no
    subscription, when the device data cannot be read. *)
Lemma START_neither_first_nor_certain :
  (exists st,
     run (H := android)
       [Mounted; SocketOpened; StartTrackingCalled; PermissionAnswered 0 (Ok GRANTED);
        StartDeviceDataRead 0 sample_device;
        PositionDelivered 0 (position_at 3%float 4%float);
        WatchAddressSettled 1 (address_of "Cibiru");
        CurrentPositionRead 0 (position_at 1%float 2%float);
        StartAddressSettled 0 (address_of "Sukamaju")] initial = Some st /\
     map (fun p => eventType (data p)) (emitted (trace st)) = [ONGOING; START] /\
     pending st = []) /\
  (exists st,
     run (H := android)
       [Mounted; SocketOpened; StartTrackingCalled; PermissionAnswered 0 (Ok GRANTED);
        StartDeviceDataRead 0 no_device] initial = Some st /\
     tracking st = true /\ emitted (trace st) = [] /\
     pending st = [] /\ watchers st = []).
Proof.
  split; eexists; (split; [vm_compute; reflexivity|]); repeat split; reflexivity.
Qed.

(** ** stopTracking while tracking *)



Lemma nth_last {A : Type} (l : list A) (x d : A) :
  nth (List.length l) (x :: l) d = last (x :: l) d.
Proof.
  revert x. induction l as [|y l IH]; intros x; [reflexivity|].
  change (nth (List.length l) (y :: l) d = last (y :: l) d).
  apply IH.
Qed.

Lemma nth_error_last {A : Type} (l : list A) (t : A) :
  nth_error (l ++ [t]) (List.length l) = Some t.
Proof. induction l as [|x l IH]; simpl; auto. Qed.

Lemma remove_nth_last {A : Type} (l : list A) (t : A) :
  remove_nth (List.length l) (l ++ [t]) = l.
Proof. induction l as [|x l IH]; simpl; [reflexivity | now rewrite IH]. Qed.

Section StopTracking.
Context `{Platform}.

(** What [stopTracking] does at the call when [tracking] is true. *)
Lemma stopTracking_call (st : State) :
  tracking st = true ->
  tracking (stopTracking st) = false /\
  watchId (stopTracking st) = None /\
  watchers (stopTracking st) =
    match watchId st with
    | Some id => filter (fun e => negb (Nat.eqb (fst e) id)) (watchers st)
    | None => watchers st
    end /\
  (forall id, watchId st = Some id -> In (ClearWatch id) (trace (stopTracking st))) /\
  locations (stopTracking st) = locations st /\
  emitted (trace (stopTracking st)) = emitted (trace st) /\
  exists lastLocation,
    deref lastLocation st = last (locations st) unknownLocation /\
    pending (stopTracking st) =
      pending st ++ [if needs_address (deref lastLocation st)
                     then StopAwaitAddress lastLocation
                     else StopAwaitDeviceData lastLocation].
Proof.
  intros Htracking. unfold stopTracking. rewrite Htracking. cbn [negb].
  set (cleared := match watchId st with
                  | Some id => set_watchId None (clearWatch id st)
                  | None => st
                  end).
  assert (Hloc : locations (set_tracking false cleared) = locations st)
    by (unfold cleared; destruct (watchId st); reflexivity).
  assert (Hpend : pending (set_tracking false cleared) = pending st)
    by (unfold cleared; destruct (watchId st); reflexivity).
  assert (Hemit : emitted (trace (set_tracking false cleared)) = emitted (trace st)).
  { unfold cleared. destruct (watchId st); simpl; [|reflexivity].
    rewrite emitted_app. simpl. now rewrite app_nil_r. }
  assert (Hid : watchId (set_tracking false cleared) = None)
    by (unfold cleared; destruct (watchId st) eqn:E; simpl; auto).
  assert (Hw : watchers (set_tracking false cleared) =
               match watchId st with
               | Some id => filter (fun e => negb (Nat.eqb (fst e) id)) (watchers st)
               | None => watchers st
               end)
    by (unfold cleared; destruct (watchId st); reflexivity).
  assert (Hclear : forall id, watchId st = Some id ->
                     In (ClearWatch id) (trace (set_tracking false cleared))).
  { intros id E. unfold cleared. rewrite E. simpl. rewrite in_app_iff. simpl. tauto. }
  assert (Hflag : tracking (set_tracking false cleared) = false) by reflexivity.
  generalize dependent (set_tracking false cleared).
  intros st1 Hloc Hpend Hemit Hid Hw Hclear Hflag.
  rewrite Hloc.
  set (lastLocation := if Nat.ltb 0 (List.length (locations st))
                       then Stored (List.length (locations st) - 1)
                       else Fresh unknownLocation).
  assert (Hderef : deref lastLocation st1 = deref lastLocation st)
    by (unfold deref; rewrite Hloc; reflexivity).
  assert (Hlast : deref lastLocation st = last (locations st) unknownLocation).
  { unfold lastLocation. destruct (locations st) as [|x l] eqn:E; [reflexivity|].
    cbn [List.length Nat.ltb Nat.leb deref]. rewrite E.
    replace (S (List.length l) - 1) with (List.length l) by lia.
    apply nth_last. }
  rewrite Hderef.
  destruct (needs_address (deref lastLocation st)) eqn:Hneeds; simpl;
    rewrite ?emitted_app; simpl; rewrite ?app_nil_r, Hpend.
  - split; [exact Hflag|]. split; [exact Hid|]. split; [exact Hw|]. split.
    + intros id E. rewrite in_app_iff. left. now apply Hclear.
    + split; [exact Hloc|]. split; [exact Hemit|].
      exists lastLocation. rewrite Hneeds. split; [exact Hlast | reflexivity].
  - split; [exact Hflag|]. split; [exact Hid|]. split; [exact Hw|].
    split; [exact Hclear|]. split; [exact Hloc|]. split; [exact Hemit|].
    exists lastLocation. rewrite Hneeds. split; [exact Hlast | reflexivity].
Qed.











End StopTracking.



(** ** The stream callbacks *)

Section WatchPosition.
Context `{Platform}.

(** The lookup of a stream callback settles with an address: the record is
    appended at the end of [locations] and the ONGOING event is sent, at
    that moment. *)
Lemma watch_completion_appends (st : State) (i : nat) (d : DeviceData)
    (lat lon : number) (r : AxiosOutcome) :
  nth_error (pending st) i = Some (WatchAwaitAddress d lat lon) ->
  address_ok r = true ->
  exists st',
    step (WatchAddressSettled i r) st = Some st' /\
    locations st' = locations st ++ [mkLocation lat lon None (resolved_address r)] /\
    emitted (trace st') =
      emitted (trace st) ++
      [make_payload ONGOING d (Some (mkLocation lat lon None (resolved_address r)))] /\
    pending st' = remove_nth i (pending st) /\
    watchers st' = watchers st.
Proof.
  intros Hnth Hok. eexists. split.
  - simpl. rewrite Hnth. reflexivity.
  - unfold watchPosition_success_address, address_ok, resolved_address in *.
    destruct (fetchAddress_resume r) as [logged [v|e]] eqn:Hres; [|discriminate].
    rewrite (fetchAddress_resume_success _ _ _ Hres). simpl.
    rewrite emitted_sendLocationEvent.
    destruct (frame_sendLocationEvent ONGOING d (Some (mkLocation lat lon None v))
                (set_locations (locations st ++ [mkLocation lat lon None v])
                   (settle i st)))
      as (_ & b & _ & _ & e & _ & g).
    rewrite b, e, g. simpl. tauto.
Qed.

(** Callbacks delivered in turn, each lookup settling before the next
    callback: the records and the events are in the order of arrival. *)
Lemma in_turn_keeps_arrival_order (cs : list (GeolocationCoordinates * AxiosOutcome))
    (st : State) (id : nat) (d : DeviceData) :
  find_watcher id (watchers st) = Some d ->
  forallb (fun c => address_ok (snd c)) cs = true ->
  exists st',
    run (in_turn id (List.length (pending st)) cs) st = Some st' /\
    locations st' = locations st ++ map record_of cs /\
    emitted (trace st') =
      emitted (trace st) ++ map (fun c => make_payload ONGOING d (Some (record_of c))) cs /\
    pending st' = pending st /\
    watchers st' = watchers st.
Proof.
  revert st. induction cs as [|[c r] cs IH]; intros st Hwatch Hok.
  - exists st. simpl. rewrite !app_nil_r. tauto.
  - simpl in Hok. apply andb_prop in Hok as [Hr Hcs].
    set (st1 := watchPosition_success d
                  (Some {| coords := Some c; position_timestamp := 0%float |}) st).
    assert (Hp1 : pending st1 =
                  pending st ++ [WatchAwaitAddress d (coords_latitude c)
                                   (coords_longitude c)]) by reflexivity.
    assert (Hnth : nth_error (pending st1) (List.length (pending st)) =
                   Some (WatchAwaitAddress d (coords_latitude c) (coords_longitude c)))
      by (rewrite Hp1; apply nth_error_last).
    destruct (watch_completion_appends st1 _ _ _ _ r Hnth Hr)
      as (st2 & Hstep & Hloc & Hemit & Hpend & Hw).
    rewrite Hp1, remove_nth_last in Hpend.
    assert (Hwatch2 : find_watcher id (watchers st2) = Some d)
      by (rewrite Hw; exact Hwatch).
    destruct (IH st2 Hwatch2 Hcs) as (st' & Hrun & Hloc' & Hemit' & Hpend' & Hw').
    exists st'. split.
    + change (in_turn id (List.length (pending st)) ((c, r) :: cs))
        with ([PositionDelivered id
                 (Some {| coords := Some c; position_timestamp := 0%float |});
               WatchAddressSettled (List.length (pending st)) r] ++
              in_turn id (List.length (pending st)) cs).
      rewrite run_app.
      assert (Htwo : run [PositionDelivered id
                            (Some {| coords := Some c; position_timestamp := 0%float |});
                          WatchAddressSettled (List.length (pending st)) r] st = Some st2).
      { assert (Hone : step (PositionDelivered id
                                (Some {| coords := Some c;
                                         position_timestamp := 0%float |})) st = Some st1)
          by (cbn [step]; rewrite Hwatch; reflexivity).
        cbn [run]. rewrite Hone, Hstep. reflexivity. }
      rewrite Htwo. rewrite <- Hpend. exact Hrun.
    + assert (Hl1 : locations st1 = locations st) by reflexivity.
      assert (Hw1 : watchers st1 = watchers st) by reflexivity.
      assert (He1 : emitted (trace st1) = emitted (trace st)).
      { unfold st1, watchPosition_success. simpl. rewrite emitted_app. simpl.
        now rewrite app_nil_r. }
      rewrite Hloc', Hemit', Hpend', Hw', Hloc, Hemit, Hpend, Hw, Hl1, Hw1, He1.
      cbn [map]. rewrite <- !app_assoc.
      repeat split; reflexivity.
Qed.

(** C3, as the code has it.  In every run in which no lookup of a stream
    callback fails, between two states with no such lookup in flight, the
    records appended to [locations] and the ONGOING events sent are as many
    as the callbacks delivered with coordinates.  A record is appended, and
    its event sent, when its own lookup settles; so the records are in the
    order of arrival when each lookup settles before the next callback is
    delivered. *)
Theorem callbacks_append_and_send_when_lookup_succeeds :
  (forall (evs : list Event) (st st' : State),
     run evs st = Some st' ->
     forallb watch_proceeds evs = true ->
     in_flight watch_task st = 0 ->
     in_flight watch_task st' = 0 ->
     List.length (locations st') =
       List.length (locations st) + List.length (filter is_delivery evs) /\
     emittedOf ONGOING (trace st') =
       emittedOf ONGOING (trace st) + List.length (filter is_delivery evs)) /\
  (forall (st : State) (i : nat) (d : DeviceData) (lat lon : number) (r : AxiosOutcome),
     nth_error (pending st) i = Some (WatchAwaitAddress d lat lon) ->
     address_ok r = true ->
     exists st',
       step (WatchAddressSettled i r) st = Some st' /\
       locations st' = locations st ++ [mkLocation lat lon None (resolved_address r)] /\
       emitted (trace st') =
         emitted (trace st) ++
         [make_payload ONGOING d (Some (mkLocation lat lon None (resolved_address r)))]) /\
  (forall (cs : list (GeolocationCoordinates * AxiosOutcome)) (st : State) (id : nat)
          (d : DeviceData),
     find_watcher id (watchers st) = Some d ->
     forallb (fun c => address_ok (snd c)) cs = true ->
     exists st',
       run (in_turn id (List.length (pending st)) cs) st = Some st' /\
       locations st' = locations st ++ map record_of cs /\
       emitted (trace st') =
         emitted (trace st) ++
         map (fun c => make_payload ONGOING d (Some (record_of c))) cs).
Proof.
  split; [|split].
  - intros evs st st' Hrun Hok Hbefore Hafter.
    pose proof (run_watch_accounting _ _ _ Hrun Hok). lia.
  - intros st i d lat lon r Hnth Hok.
    destruct (watch_completion_appends st i d lat lon r Hnth Hok)
      as (st' & Hstep & Hloc & Hemit & _).
    exists st'. tauto.
  - intros cs st id d Hwatch Hok.
    destruct (in_turn_keeps_arrival_order cs st id d Hwatch Hok)
      as (st' & Hrun & Hloc & Hemit & _).
    exists st'. tauto.
Qed.

End WatchPosition.

Lemma callbacks_append_and_send_when_lookup_succeeds_witness :
  List.length
    (locations (from_run (run (H := android)
                            [PositionDelivered 0 (position_at 3%float 4%float);
                             PositionDelivered 0 (position_at 5%float 6%float);
                             WatchAddressSettled 1 (address_of "Cileunyi");
                             WatchAddressSettled 0 (address_of "Cibiru")]
                            tracking_session))) = 2 /\
  exists st',
    run (H := android)
      (in_turn 0 0 [(mkCoords 3%float 4%float 5%float, address_of "Cibiru");
                    (mkCoords 5%float 6%float 5%float, address_of "Cileunyi")])
      tracking_session = Some st' /\
    map (fun l => (latitude l, longitude l)) (locations st') =
      [(3%float, 4%float); (5%float, 6%float)].
Proof.
  destruct (callbacks_append_and_send_when_lookup_succeeds (H := android))
    as (Hcount & _ & Hturn).
  split.
  - exact (proj1 (Hcount [PositionDelivered 0 (position_at 3%float 4%float);
                          PositionDelivered 0 (position_at 5%float 6%float);
                          WatchAddressSettled 1 (address_of "Cileunyi");
                          WatchAddressSettled 0 (address_of "Cibiru")]
                    tracking_session _ eq_refl eq_refl eq_refl eq_refl)).
  - destruct (Hturn [(mkCoords 3%float 4%float 5%float, address_of "Cibiru");
                     (mkCoords 5%float 6%float 5%float, address_of "Cileunyi")]
                tracking_session 0 sample_deviceData eq_refl eq_refl)
      as (st' & Hrun & Hloc & _).
    exists st'. split; [exact Hrun|]. rewrite Hloc. reflexivity.
Defined.

(** C3 as stated fails.  A callback with coordinates whose lookup is
    rejected appends no record and sends no ONGOING event; and of two
    callbacks, the one whose lookup settles first is recorded first, whatever
    the order of arrival. *)
Lemma callbacks_lost_or_reordered :
  (exists st,
     run (H := android)
       [PositionDelivered 0 (position_at 3%float 4%float);
        WatchAddressSettled 0 status_500] tracking_session = Some st /\
     locations st = [] /\ emittedOf ONGOING (trace st) = 0 /\ pending st = []) /\
  (exists st,
     run (H := android)
       [PositionDelivered 0 (position_at 3%float 4%float);
        PositionDelivered 0 (position_at 5%float 6%float);
        WatchAddressSettled 1 (address_of "Cileunyi");
        WatchAddressSettled 0 (address_of "Cibiru")] tracking_session = Some st /\
     map (fun l => (latitude l, longitude l)) (locations st) =
       [(5%float, 6%float); (3%float, 4%float)] /\
     map (fun p => data_latitude (data p)) (emitted (trace st)) =
       [Some 1%float; Some 5%float; Some 3%float] /\
     pending st = []).
Proof.
  split; eexists; (split; [vm_compute; reflexivity|]); repeat split; reflexivity.
Qed.

(** * Further properties of the code *)

(** ** No more events than calls *)

Section Bounds.
Context `{Platform}.

Lemma step_bounds (ev : Event) (st st' : State) :
  step ev st = Some st' ->
  emittedOf START (trace st') + in_flight start_task st' <=
    emittedOf START (trace st) + in_flight start_task st +
    (if is_start_call ev then 1 else 0) /\
  emittedOf ONGOING (trace st') + in_flight watch_task st' <=
    emittedOf ONGOING (trace st) + in_flight watch_task st +
    (if is_delivery ev then 1 else 0) /\
  emittedOf FINISH (trace st') + in_flight stop_task st' <=
    emittedOf FINISH (trace st) + in_flight stop_task st +
    (if is_stop_call ev && tracking st then 1 else 0).
Proof.
  intros Hstep.
  destruct ev; open_step Hstep;
    settle_with start_task; settle_with watch_task; settle_with stop_task;
    unfold is_delivery, well_formed; crunch.
Qed.

(** X1.  Whatever fails and however the operations interleave, a run sends at
    most one START event for each call of [startTracking], at most one
    ONGOING event for each stream callback delivered with coordinates, and at
    most one FINISH event for each call of [stopTracking] that found
    [tracking] true; the operations still in flight count for the events
    they may yet send. *)
Theorem never_more_events_than_calls (evs : list Event) (st st' : State) :
  run evs st = Some st' ->
  emittedOf START (trace st') + in_flight start_task st' <=
    emittedOf START (trace st) + in_flight start_task st +
    List.length (filter is_start_call evs) /\
  emittedOf ONGOING (trace st') + in_flight watch_task st' <=
    emittedOf ONGOING (trace st) + in_flight watch_task st +
    List.length (filter is_delivery evs) /\
  emittedOf FINISH (trace st') + in_flight stop_task st' <=
    emittedOf FINISH (trace st) + in_flight stop_task st + effective_stops evs st.
Proof.
  revert st. induction evs as [|ev evs IH]; intros st Hrun; simpl in *.
  - injection Hrun as <-. lia.
  - destruct (step ev st) as [st1|] eqn:Hstep; [|discriminate].
    specialize (IH _ Hrun). pose proof (step_bounds _ _ _ Hstep) as Hone.
    destruct (is_start_call ev), (is_delivery ev); simpl; lia.
Qed.

End Bounds.

Lemma never_more_events_than_calls_witness :
  emittedOf START
    (trace (from_run (run (H := android)
                        [StartTrackingCalled; PermissionAnswered 0 (Ok GRANTED);
                         StartDeviceDataRead 0 sample_device;
                         CurrentPositionRead 0 (position_at 1%float 2%float);
                         StartAddressSettled 0 status_500] initial))) +
  in_flight start_task
    (from_run (run (H := android)
                 [StartTrackingCalled; PermissionAnswered 0 (Ok GRANTED);
                  StartDeviceDataRead 0 sample_device;
                  CurrentPositionRead 0 (position_at 1%float 2%float);
                  StartAddressSettled 0 status_500] initial)) <= 1.
Proof.
  exact (proj1 (never_more_events_than_calls (H := android)
                  [StartTrackingCalled; PermissionAnswered 0 (Ok GRANTED);
                   StartDeviceDataRead 0 sample_device;
                   CurrentPositionRead 0 (position_at 1%float 2%float);
                   StartAddressSettled 0 status_500] initial _
                  ltac:(vm_compute; reflexivity))).
Defined.

(** Runs a handler through all its branches. *)
Ltac run_handler :=
  unfold_handlers; resolve_address;
  repeat (simpl;
    match goal with
    | |- context [match ?x with _ => _ end] => destruct x eqn:?
    | |- context [if ?x then _ else _] => destruct x eqn:?
    end; try discriminate);
  simpl; intros.

(** ** The socket and the events *)

Lemma make_payload_well_formed (k : EventType) (d : DeviceData) (l : option Location) :
  well_formed_payload (make_payload k d l).
Proof.
  unfold well_formed_payload, make_payload. simpl. split; [reflexivity|]. split.
  - unfold string_or. destruct (bind_option l reverseData) as [s|]; [|discriminate].
    destruct s; simpl; discriminate.
  - split; intros x; destruct l as [loc|]; simpl; try discriminate;
      match goal with
      | |- context [number_truthy ?y] => destruct (number_truthy y) eqn:E
      end; intros [= <-]; exact E.
Qed.

Section Socket.
Context `{Platform}.

(** What a transition adds to the events and to the frames. *)
Lemma step_effect (ev : Event) (st st' : State) :
  step ev st = Some st' ->
  exists ps,
    emitted (trace st') = emitted (trace st) ++ ps /\
    transmitted (trace st') =
      transmitted (trace st) ++ (if is_open (ws st) then ps else []) /\
    Forall well_formed_payload ps.
Proof.
  intros Hstep.
  destruct ev; open_step Hstep; run_handler;
    rewrite <- ?app_assoc, ?emitted_app, ?transmitted_app; simpl;
    first [ exists []; destruct (is_open (ws st)); rewrite ?app_nil_r;
            repeat split; constructor
          | eexists; split; [reflexivity|];
            split; [reflexivity | repeat constructor; apply make_payload_well_formed] ].
Qed.

(** The handlers of the screen leave the socket alone. *)
Lemma step_keeps_ws (ev : Event) (st st' : State) :
  step ev st = Some st' ->
  match ev with
  | Mounted | Unmounted | SocketOpened | SocketClosed => True
  | _ => ws st' = ws st
  end.
Proof.
  intros Hstep.
  destruct ev; try exact I; open_step Hstep; run_handler; congruence.
Qed.

(** Only [onopen] opens the socket; only a new mount revives one that is
    closing or closed. *)
Lemma step_socket (ev : Event) (st st' : State) :
  step ev st = Some st' ->
  (is_open (ws st) = false -> is_socket_open ev = false -> is_open (ws st') = false) /\
  (is_open (ws st) = true -> keeps_socket ev = true -> is_open (ws st') = true) /\
  (shut st = true -> is_mount ev = false -> shut st' = true).
Proof.
  intros Hstep. pose proof (step_keeps_ws _ _ _ Hstep) as Hws.
  unfold shut.
  destruct ev; try (rewrite Hws; tauto); clear Hws; simpl in Hstep.
  - injection Hstep as <-. simpl. repeat split; intros; discriminate.
  - injection Hstep as <-. unfold unmount, close.
    destruct (ws st) as [socket|] eqn:E; simpl; [|rewrite E; simpl];
      repeat split; intros; try discriminate; try assumption.
    + destruct (readyState socket); simpl in *; congruence.
    + destruct (readyState socket); simpl in *; congruence.
  - destruct (ws st) as [socket|]; [|discriminate].
    destruct (readyState socket) eqn:E; try discriminate.
    injection Hstep as <-. simpl. rewrite E.
    repeat split; intros; discriminate.
  - destruct (ws st) as [socket|]; [|discriminate].
    destruct (readyState socket) eqn:E; try discriminate;
      injection Hstep as <-; simpl; repeat split; intros; try discriminate;
      reflexivity.
Qed.

Lemma shut_not_open (st : State) : shut st = true -> is_open (ws st) = false.
Proof.
  unfold shut, is_open. destruct (ws st) as [socket|]; [|reflexivity].
  destruct (readyState socket); simpl; congruence.
Qed.

Lemma run_socket_closed (evs : list Event) (st st' : State) :
  run evs st = Some st' ->
  is_open (ws st) = false ->
  forallb (fun ev => negb (is_socket_open ev)) evs = true ->
  transmitted (trace st') = transmitted (trace st) /\ is_open (ws st') = false.
Proof.
  revert st. induction evs as [|ev evs IH]; intros st Hrun Hclosed Hevs; simpl in *.
  - injection Hrun as <-. auto.
  - apply andb_prop in Hevs as [Hev Hevs]. apply negb_true_iff in Hev.
    destruct (step ev st) as [st1|] eqn:Hstep; [|discriminate].
    destruct (step_effect _ _ _ Hstep) as (ps & _ & Htx & _).
    destruct (step_socket _ _ _ Hstep) as (Hkeep & _ & _).
    rewrite Hclosed, app_nil_r in Htx.
    destruct (IH st1 Hrun (Hkeep Hclosed Hev) Hevs) as [Htx' Hclosed'].
    split; [congruence | exact Hclosed'].
Qed.

Lemma run_shut (evs : list Event) (st st' : State) :
  run evs st = Some st' ->
  shut st = true ->
  forallb (fun ev => negb (is_mount ev)) evs = true ->
  transmitted (trace st') = transmitted (trace st) /\ shut st' = true.
Proof.
  revert st. induction evs as [|ev evs IH]; intros st Hrun Hshut Hevs; simpl in *.
  - injection Hrun as <-. auto.
  - apply andb_prop in Hevs as [Hev Hevs]. apply negb_true_iff in Hev.
    destruct (step ev st) as [st1|] eqn:Hstep; [|discriminate].
    destruct (step_effect _ _ _ Hstep) as (ps & _ & Htx & _).
    destruct (step_socket _ _ _ Hstep) as (_ & _ & Hkeep).
    rewrite (shut_not_open _ Hshut), app_nil_r in Htx.
    destruct (IH st1 Hrun (Hkeep Hshut Hev) Hevs) as [Htx' Hshut'].
    split; [congruence | exact Hshut'].
Qed.

(** X4.  No frame is written while the socket is not open: none in a run that
    starts with the socket missing, connecting, closing or closed and in
    which it does not open; and none after teardown, whatever the
    subscriptions left live deliver, until the screen is mounted again. *)
Theorem no_frame_unless_socket_open :
  (forall (evs : list Event) (st st' : State),
     run evs st = Some st' ->
     is_open (ws st) = false ->
     forallb (fun ev => negb (is_socket_open ev)) evs = true ->
     transmitted (trace st') = transmitted (trace st)) /\
  (forall (evs : list Event) (st st' : State),
     run (Unmounted :: evs) st = Some st' ->
     forallb (fun ev => negb (is_mount ev)) evs = true ->
     transmitted (trace st') = transmitted (trace st)).
Proof.
  split.
  - intros evs st st' Hrun Hclosed Hevs.
    exact (proj1 (run_socket_closed _ _ _ Hrun Hclosed Hevs)).
  - intros evs st st' Hrun Hevs. cbn [run step] in Hrun.
    assert (Hshut : shut (unmount st) = true).
    { unfold shut, unmount, close. destruct (ws st) as [socket|] eqn:E; simpl.
      - destruct (readyState socket); reflexivity.
      - rewrite E. reflexivity. }
    assert (Htx : transmitted (trace (unmount st)) = transmitted (trace st)).
    { unfold unmount. destruct (ws st); simpl; [|reflexivity].
      rewrite transmitted_app. simpl. now rewrite app_nil_r. }
    rewrite <- Htx. exact (proj1 (run_shut _ _ _ Hrun Hshut Hevs)).
Qed.

(** X5.  While the socket stays open, the frames written are the events handed
    to [sendLocationEvent], one frame for each and in the same order. *)
Theorem frames_are_the_events_while_open (evs : list Event) (st st' : State) :
  run evs st = Some st' ->
  is_open (ws st) = true ->
  forallb keeps_socket evs = true ->
  exists ps,
    emitted (trace st') = emitted (trace st) ++ ps /\
    transmitted (trace st') = transmitted (trace st) ++ ps /\
    is_open (ws st') = true.
Proof.
  revert st. induction evs as [|ev evs IH]; intros st Hrun Hopen Hevs; simpl in *.
  - injection Hrun as <-. exists []. rewrite !app_nil_r. auto.
  - apply andb_prop in Hevs as [Hev Hevs].
    destruct (step ev st) as [st1|] eqn:Hstep; [|discriminate].
    destruct (step_effect _ _ _ Hstep) as (ps & Hem & Htx & _).
    destruct (step_socket _ _ _ Hstep) as (_ & Hkeep & _).
    rewrite Hopen in Htx.
    destruct (IH st1 Hrun (Hkeep Hopen Hev) Hevs) as (qs & Hem' & Htx' & Hopen').
    exists (ps ++ qs). rewrite Hem', Htx', Hem, Htx, <- !app_assoc. auto.
Qed.

(** X6.  Every message [sendLocationEvent] builds is named "locationUpdate", has
    an address that is not empty, and coordinates that are null or a number
    other than zero and NaN: once true of the events sent, it stays true. *)
Theorem payloads_stay_well_formed (evs : list Event) (st st' : State) :
  run evs st = Some st' ->
  Forall well_formed_payload (emitted (trace st)) ->
  Forall well_formed_payload (emitted (trace st')).
Proof.
  revert st. induction evs as [|ev evs IH]; intros st Hrun Hinv; simpl in *.
  - injection Hrun as <-. exact Hinv.
  - destruct (step ev st) as [st1|] eqn:Hstep; [|discriminate].
    destruct (step_effect _ _ _ Hstep) as (ps & Hem & _ & Hps).
    apply (IH st1 Hrun). rewrite Hem. apply Forall_app. auto.
Qed.

End Socket.

Lemma no_frame_unless_socket_open_witness :
  transmitted
    (trace (from_run (run (H := android)
                        [Unmounted; PositionDelivered 0 (position_at 3%float 4%float);
                         WatchAddressSettled 0 (address_of "Cibiru")]
                        tracking_session))) =
  transmitted (trace tracking_session).
Proof.
  exact (proj2 (no_frame_unless_socket_open (H := android))
           [PositionDelivered 0 (position_at 3%float 4%float);
            WatchAddressSettled 0 (address_of "Cibiru")]
           tracking_session _ ltac:(vm_compute; reflexivity) eq_refl).
Defined.

Lemma frames_are_the_events_while_open_witness :
  exists ps,
    emitted (trace (from_run (run (H := android)
                                [PositionDelivered 0 (position_at 3%float 4%float);
                                 WatchAddressSettled 0 (address_of "Cibiru")]
                                tracking_session))) =
      emitted (trace tracking_session) ++ ps /\
    transmitted (trace (from_run (run (H := android)
                                    [PositionDelivered 0 (position_at 3%float 4%float);
                                     WatchAddressSettled 0 (address_of "Cibiru")]
                                    tracking_session))) =
      transmitted (trace tracking_session) ++ ps /\
    is_open (ws (from_run (run (H := android)
                             [PositionDelivered 0 (position_at 3%float 4%float);
                              WatchAddressSettled 0 (address_of "Cibiru")]
                             tracking_session))) = true.
Proof.
  exact (frames_are_the_events_while_open (H := android)
           [PositionDelivered 0 (position_at 3%float 4%float);
            WatchAddressSettled 0 (address_of "Cibiru")]
           tracking_session _ ltac:(vm_compute; reflexivity) eq_refl eq_refl).
Defined.

Lemma payloads_stay_well_formed_witness :
  Forall well_formed_payload (emitted (trace tracking_session)).
Proof.
  exact (payloads_stay_well_formed (H := android)
           [Mounted; SocketOpened; StartTrackingCalled;
            PermissionAnswered 0 (Ok GRANTED); StartDeviceDataRead 0 sample_device;
            CurrentPositionRead 0 (position_at 1%float 2%float);
            StartAddressSettled 0 (address_of "Sukamaju")]
           initial tracking_session ltac:(vm_compute; reflexivity) (Forall_nil _)).
Defined.

(** ** The history of locations *)

Lemma map_place_update_nth (i : nat) (v : option string) (l : list Location) :
  map place (update_nth i (set_reverseData v) l) = map place l.
Proof.
  revert i. induction l as [|x l IH]; intros [|i]; simpl; try reflexivity.
  now rewrite IH.
Qed.

Section History.
Context `{Platform}.

Lemma step_history (ev : Event) (st st' : State) :
  step ev st = Some st' ->
  exists more, map place (locations st') = map place (locations st) ++ more.
Proof.
  intros Hstep.
  destruct ev; open_step Hstep; run_handler;
    rewrite ?map_app, ?map_place_update_nth;
    first [ exists []; rewrite app_nil_r; reflexivity | eexists; reflexivity ].
Qed.

(** X7.  The history only grows: whatever happens, the records already in
    [locations] stay where they are with their coordinates and timestamp;
    [stopTracking] never clears the list, and rewrites at most the address
    of a record. *)
Theorem history_only_grows (evs : list Event) (st st' : State) :
  run evs st = Some st' ->
  exists more, map place (locations st') = map place (locations st) ++ more.
Proof.
  revert st. induction evs as [|ev evs IH]; intros st Hrun; simpl in *.
  - injection Hrun as <-. exists []. now rewrite app_nil_r.
  - destruct (step ev st) as [st1|] eqn:Hstep; [|discriminate].
    destruct (step_history _ _ _ Hstep) as (more1 & H1).
    destruct (IH st1 Hrun) as (more2 & H2).
    exists (more1 ++ more2). now rewrite H2, H1, app_assoc.
Qed.

End History.

(** ** Subscriptions the handle has lost *)

Lemma find_watcher_app (id : nat) (d : DeviceData) (w w' : list (nat * DeviceData)) :
  find_watcher id w = Some d -> find_watcher id (w ++ w') = Some d.
Proof.
  unfold find_watcher. induction w as [|e w IH]; simpl; [discriminate|].
  destruct (Nat.eqb (fst e) id); auto.
Qed.

Lemma find_watcher_kept (id id' : nat) (d : DeviceData) (w : list (nat * DeviceData)) :
  find_watcher id w = Some d -> id <> id' ->
  find_watcher id (filter (fun e => negb (Nat.eqb (fst e) id')) w) = Some d.
Proof.
  unfold find_watcher. intros Hfind Hne.
  induction w as [|e w IH]; simpl in *; [discriminate|].
  destruct (Nat.eqb (fst e) id) eqn:He.
  - apply Nat.eqb_eq in He.
    assert (Hkeep : Nat.eqb (fst e) id' = false) by (apply Nat.eqb_neq; congruence).
    rewrite Hkeep. simpl. apply Nat.eqb_eq in He. now rewrite He.
  - destruct (Nat.eqb (fst e) id'); simpl; [|rewrite He]; auto.
Qed.

Section Orphans.
Context `{Platform}.

Lemma step_orphan (ev : Event) (st st' : State) (id : nat) (d : DeviceData) :
  step ev st = Some st' -> orphan id d st -> orphan id d st'.
Proof.
  unfold orphan. intros Hstep (Hlive & Hlost & Hfresh).
  destruct ev; open_step Hstep; run_handler;
    repeat split;
    repeat match goal with
           | |- find_watcher _ (_ ++ _) = _ => apply find_watcher_app
           | |- find_watcher _ (filter _ _) = _ => apply find_watcher_kept
           end;
    try assumption; try congruence; try lia.
  all: try (intros [= E]; lia).
Qed.

(** X8.  A live subscription that [watchId.current] does not name (its handle
    was overwritten by a later [startTracking]) is never cancelled: neither
    [stopTracking] nor teardown reaches it, and its callbacks can be
    delivered after any run. *)
Theorem lost_subscription_is_never_cancelled (evs : list Event) (st st' : State)
    (id : nat) (d : DeviceData) (position : option GeolocationPosition) :
  run evs st = Some st' ->
  orphan id d st ->
  orphan id d st' /\
  step (PositionDelivered id position) st' =
    Some (watchPosition_success d position st').
Proof.
  revert st. induction evs as [|ev evs IH]; intros st Hrun Horphan; simpl in *.
  - injection Hrun as <-. split; [exact Horphan|].
    destruct Horphan as (Hlive & _). now rewrite Hlive.
  - destruct (step ev st) as [st1|] eqn:Hstep; [|discriminate].
    apply (IH st1 Hrun). exact (step_orphan _ _ _ _ _ Hstep Horphan).
Qed.

End Orphans.

(** ** Edges of startTracking and of the stream callback *)

Section Edges.
Context `{Platform}.

(** X2.  The lookup of the first position fails: the success callback of
    [getCurrentPosition], which has no [try], ends in a rejection nobody
    handles.  No START event is sent for the call, then or later, and the
    session state is untouched. *)
Theorem first_lookup_failure_sends_no_START (st : State) (i : nat) (d : DeviceData)
    (lat lon : number) (r : AxiosOutcome) :
  nth_error (pending st) i = Some (StartAwaitAddress d lat lon) ->
  address_ok r = false ->
  exists st' e,
    step (StartAddressSettled i r) st = Some st' /\
    same_session st' st /\
    pending st' = remove_nth i (pending st) /\
    emitted (trace st') = emitted (trace st) /\
    trace st' =
      trace st ++ [ConsoleError "Error fetching address:" (Some (ErrJs e));
                   UnhandledRejection e].
Proof.
  intros Hnth Hfail. unfold address_ok in Hfail.
  destruct (fetchAddress_resume r) as [logged [v|e]] eqn:Hres; [discriminate|].
  eexists. exists e. split.
  - simpl. rewrite Hnth. reflexivity.
  - unfold getCurrentPosition_success_address, same_session. rewrite Hres.
    rewrite (fetchAddress_resume_failure _ _ _ Hres). simpl.
    rewrite <- !app_assoc, !emitted_app. simpl. rewrite !app_nil_r. tauto.
Qed.

(** X9.  The lookup service answers without an [address]: [fetchAddress] does
    not fail, it returns [undefined].  The stream callback then stores a
    record with no address, for which [stopTracking] would look the address
    up again, and sends an ONGOING event whose address is "Unknown". *)
Theorem answer_without_address_is_recorded (st : State) (i : nat) (d : DeviceData)
    (lat lon : number) (response : AxiosResponse) (body : Json) :
  nth_error (pending st) i = Some (WatchAwaitAddress d lat lon) ->
  response_data response = Some body ->
  body <> JNull ->
  get_property body "address" = None ->
  snd (fetchAddress_resume (Resolved response)) = Ok None /\
  exists st' p,
    step (WatchAddressSettled i (Resolved response)) st = Some st' /\
    locations st' = locations st ++ [mkLocation lat lon None None] /\
    needs_address (mkLocation lat lon None None) = true /\
    emitted (trace st') = emitted (trace st) ++ [p] /\
    eventType (data p) = ONGOING /\
    data_reverseData (data p) = "Unknown".
Proof.
  intros Hnth Hdata Hbody Hmissing.
  assert (Hres : fetchAddress_resume (Resolved response) = ([], Ok None)).
  { simpl. rewrite Hdata. destruct body; try congruence;
      unfold get_property in *; simpl in *; rewrite ?Hmissing; reflexivity. }
  split; [now rewrite Hres|].
  assert (Hok : address_ok (Resolved response) = true)
    by (unfold address_ok; now rewrite Hres).
  destruct (watch_completion_appends st i d lat lon _ Hnth Hok)
    as (st' & Hstep & Hloc & Hemit & _).
  assert (Hnone : resolved_address (Resolved response) = None)
    by (unfold resolved_address; now rewrite Hres).
  rewrite Hnone in *.
  exists st'. eexists. split; [exact Hstep|]. split; [exact Hloc|].
  split; [reflexivity|]. split; [exact Hemit|]. split; reflexivity.
Qed.

(** X3.  Permission is what [requestLocationPermission] makes of the answer: off
    Android it is always granted, on Android only for the answer GRANTED.
    Without it [startTracking] stops at once on both screens: the flag, the
    handle and the subscriptions are as before, nothing is looked up and no
    event is sent.  The user is told once, and that is all the call does to
    the outside: an answer other than GRANTED shows the alert "Permission
    Denied" with the screen's own text, a request that failed is logged by
    the [catch] as "Error in startTracking:" with its error. *)
Theorem no_permission_no_tracking :
  (forall reply : Result PermissionStatus,
     granted reply = true <-> Platform_OS = IOS \/ reply = Ok GRANTED) /\
  (forall (st : State) (i : nat) (reply : Result PermissionStatus),
     nth_error (pending st) i = Some StartAwaitPermission ->
     granted reply = false ->
     exists st' o,
       step (PermissionAnswered i reply) st = Some st' /\
       same_session st' st /\
       pending st' = remove_nth i (pending st) /\
       trace st' = trace st ++ [o] /\
       emitted [o] = [] /\ requests [o] = [] /\
       o = match reply with
           | Ok _ => AlertShown "Permission Denied" "Location access is required."
           | Err e => ConsoleError "Error in startTracking:" (Some (ErrJs e))
           end) /\
  (forall (m : MapScreen.State) (i : nat) (reply : Result PermissionStatus),
     nth_error (MapScreen.pending m) i = Some MapScreen.StartAwaitPermission ->
     granted reply = false ->
     exists m' o,
       MapScreen.step (MapScreen.PermissionAnswered i reply) m = Some m' /\
       MapScreen.tracking m' = MapScreen.tracking m /\
       MapScreen.watchId m' = MapScreen.watchId m /\
       MapScreen.watchers m' = MapScreen.watchers m /\
       MapScreen.location m' = MapScreen.location m /\
       MapScreen.pending m' = remove_nth i (MapScreen.pending m) /\
       MapScreen.trace m' = MapScreen.trace m ++ [o] /\
       requests [o] = [] /\
       o = match reply with
           | Ok _ => AlertShown "Permission Denied" "Izin mengkases lokasi dibutuhkan."
           | Err e => ConsoleError "Error in startTracking:" (Some (ErrJs e))
           end).
Proof.
  split; [|split].
  - intros reply. unfold granted, requestLocationPermission.
    destruct Platform_OS; [|intuition congruence].
    destruct reply as [[| |]|e]; simpl; intuition congruence.
  - intros st i reply Hnth Hdenied.
    assert (Hreq : requestLocationPermission reply =
                   match reply with Ok _ => Ok false | Err e => Err e end).
    { unfold granted, requestLocationPermission in *.
      destruct Platform_OS; [|discriminate].
      destruct reply as [[| |]|e]; simpl in *; congruence. }
    destruct reply as [status|e];
      (do 2 eexists; split; [simpl; rewrite Hnth; reflexivity|]);
      unfold startTracking_permission, same_session; rewrite Hreq; simpl;
      repeat split; reflexivity.
  - intros m i reply Hnth Hdenied.
    assert (Hreq : requestLocationPermission reply =
                   match reply with Ok _ => Ok false | Err e => Err e end).
    { unfold granted, requestLocationPermission in *.
      destruct Platform_OS; [|discriminate].
      destruct reply as [[| |]|e]; simpl in *; congruence. }
    destruct reply as [status|e];
      (do 2 eexists; split; [simpl; rewrite Hnth; reflexivity|]);
      unfold MapScreen.startTracking_permission; rewrite Hreq; simpl;
      repeat split; reflexivity.
Qed.

End Edges.

Lemma nth_error_app_left {A : Type} (l l' : list A) (i : nat) (t : A) :
  nth_error l i = Some t -> nth_error (l ++ l') i = Some t.
Proof.
  revert i. induction l as [|x l IH]; intros [|i]; simpl; try discriminate; auto.
Qed.

Section StopDuringStart.
Context `{Platform}.

(** X15.  [stopTracking] called while [startTracking] still waits for the device
    data finds no handle to cancel, and the continuation of [startTracking]
    does not look at [tracking] again: it opens the subscription and asks
    for the first position on a screen that shows tracking as stopped. *)
Theorem stop_during_start_leaves_subscription (st : State) (i : nat)
    (info : DeviceInfoReply) (d : DeviceData) :
  tracking st = true ->
  watchId st = None ->
  nth_error (pending st) i = Some StartAwaitDeviceData ->
  getDeviceData info = Ok d ->
  exists st',
    run [StopTrackingCalled; StartDeviceDataRead i info] st = Some st' /\
    tracking st' = false /\
    watchId st' = Some (nextWatchId st) /\
    watchers st' = watchers st ++ [(nextWatchId st, d)] /\
    In (CurrentPositionRequest d) (pending st') /\
    in_flight stop_task st' = in_flight stop_task st + 1.
Proof.
  intros Htracking Hhandle Hnth Hdevice.
  destruct (stopTracking_call st Htracking)
    as (Hflag & Hid & Hw & _ & _ & _ & (lastLocation & _ & Hpend)).
  rewrite Hhandle in Hw.
  assert (Hnth1 : nth_error (pending (stopTracking st)) i = Some StartAwaitDeviceData)
    by (rewrite Hpend; now apply nth_error_app_left).
  assert (Hnext : nextWatchId (stopTracking st) = nextWatchId st).
  { unfold stopTracking. rewrite Htracking, Hhandle. simpl.
    match goal with
    | |- context [needs_address ?x] => destruct (needs_address x)
    end; reflexivity. }
  assert (Hstop : in_flight stop_task (stopTracking st) = in_flight stop_task st + 1).
  { unfold in_flight. rewrite Hpend, filter_app, length_app.
    destruct (needs_address _); reflexivity. }
  assert (Hone : step StopTrackingCalled st = Some (stopTracking st)) by reflexivity.
  remember (stopTracking st) as st1 eqn:E. clear E Hpend.
  assert (Htwo : step (StartDeviceDataRead i info) st1 =
                 Some (startTracking_deviceData info (settle i st1)))
    by (cbn [step]; rewrite Hnth1; reflexivity).
  exists (startTracking_deviceData info (settle i st1)). split.
  - change (run [StopTrackingCalled; StartDeviceDataRead i info] st)
      with (match step StopTrackingCalled st with
            | Some s => match step (StartDeviceDataRead i info) s with
                        | Some s' => Some s'
                        | None => None
                        end
            | None => None
            end).
    rewrite Hone, Htwo. reflexivity.
  - pose proof (in_flight_settle stop_task st1 i _ Hnth1) as Hsettle.
    unfold startTracking_deviceData. rewrite Hdevice.
    unfold watchPosition, await, in_flight in *. simpl in *.
    rewrite Hflag, Hw, Hnext, filter_app, length_app, in_app_iff. simpl.
    repeat split; auto. lia.
Qed.

End StopDuringStart.

(** ** formatAddress on what fetchAddress returns *)

Section Display.
Context `{Platform} `{JsonRuntime}.

(** X10.  The address a record got from [fetchAddress] is the [address] of the
    answer, serialized; [formatAddress] reads it back (as far as
    [JSON.parse] undoes [JSON.stringify]) and shows the village and the
    municipality when both are there.  When the address has no village,
    municipality or county, as for a town, the text shown starts with
    "undefined": the fallback "Unknown Address" is not used. *)
Theorem formatAddress_shows_fetched_address (response : AxiosResponse)
    (body address : Json) :
  response_data response = Some body ->
  get_property body "address" = Some address ->
  JSON_parse (JSON_stringify address) = Ok address ->
  resolved_address (Resolved response) = Some (JSON_stringify address) /\
  (forall village municipality,
     get_property address "village" = Some (JString village) ->
     village <> EmptyString ->
     get_property address "municipality" = Some (JString municipality) ->
     municipality <> EmptyString ->
     formatAddress (resolved_address (Resolved response)) =
       ([], (village ++ ", " ++ municipality)%string)) /\
  (forall municipality,
     get_property address "village" = None ->
     get_property address "municipality" = Some (JString municipality) ->
     municipality <> EmptyString ->
     formatAddress (resolved_address (Resolved response)) =
       ([], (municipality ++ ", " ++ municipality)%string)) /\
  (address <> JNull ->
   get_property address "village" = None ->
   get_property address "municipality" = None ->
   get_property address "county" = None ->
   formatAddress (resolved_address (Resolved response)) =
     ([], ("undefined, " ++ template (get_property address "state"))%string)).
Proof.
  intros Hdata Haddress Hround.
  assert (Hres : resolved_address (Resolved response) = Some (JSON_stringify address)).
  { unfold resolved_address. simpl. rewrite Hdata.
    destruct body; simpl in Haddress; try discriminate.
    unfold get_property. rewrite Haddress. reflexivity. }
  split; [exact Hres|]. rewrite Hres. unfold formatAddress. rewrite Hround.
  split; [|split].
  - intros village municipality Hv Hvne Hm Hmne.
    destruct address; simpl in Hv; try discriminate.
    unfold get_property in *. rewrite Hv, Hm.
    destruct village; [congruence|]. destruct municipality; [congruence|].
    reflexivity.
  - intros municipality Hv Hm Hmne.
    destruct address; simpl in Hm; try discriminate.
    unfold get_property in *. rewrite Hv, Hm.
    destruct municipality; [congruence|]. reflexivity.
  - intros Hnull Hv Hm Hc.
    destruct address; try congruence; rewrite Hv, Hm, Hc; reflexivity.
Qed.

(** X11.  A record whose lookup found no [address] holds [undefined], and one
    whose answer had a null [address] holds the text of null: for both,
    [formatAddress] logs an error and shows "Unknown Address". *)
Theorem formatAddress_unknown_for_missing_address (response : AxiosResponse)
    (body : Json) (e : JsError) :
  response_data response = Some body ->
  body <> JNull ->
  JSON_parse "undefined" = Err e ->
  JSON_parse (JSON_stringify JNull) = Ok JNull ->
  (get_property body "address" = None ->
   formatAddress (resolved_address (Resolved response)) =
     ([ConsoleError "Error formatting address:" (Some (ErrJs e))], "Unknown Address")) /\
  (get_property body "address" = Some JNull ->
   formatAddress (resolved_address (Resolved response)) =
     ([ConsoleError "Error formatting address:" (Some (ErrJs TypeError_village))],
      "Unknown Address")).
Proof.
  intros Hdata Hbody Hundefined Hnull.
  unfold resolved_address. simpl. rewrite Hdata.
  split; intros Haddress.
  - destruct body; try congruence; simpl in *; rewrite ?Haddress; simpl;
      unfold formatAddress; rewrite Hundefined; reflexivity.
  - destruct body; simpl in Haddress; try discriminate.
    simpl. rewrite Haddress. simpl. unfold formatAddress. rewrite Hnull. reflexivity.
Qed.

End Display.

(** ** getLocationDetails *)

Lemma shown_app (a b : list LocationDetails.Effect) :
  LocationDetails.shown (a ++ b) = LocationDetails.shown a ++ LocationDetails.shown b.
Proof.
  induction a as [|e a IH]; simpl; [reflexivity|].
  destruct e; simpl; rewrite IH; reflexivity.
Qed.

Lemma reads_app (a b : list LocationDetails.Effect) :
  LocationDetails.reads (a ++ b) = LocationDetails.reads a + LocationDetails.reads b.
Proof.
  induction a as [|e a IH]; simpl; [reflexivity|].
  destruct e; simpl; rewrite IH; reflexivity.
Qed.

Lemma error_message_never_initial (code : nat) :
  LocationDetails.error_message code <> "Failed to get location.".
Proof.
  unfold LocationDetails.error_message.
  destruct code as [|[|[|[|n]]]]; discriminate.
Qed.

Section Details.
Context `{Platform}.

(** X12.  [getLocationDetails] never rejects.  It returns coordinates, having
    shown nothing, only when permission is granted and the read delivers
    them; on every failure it returns null after showing exactly one
    message, which is never the message the function starts with.  The
    position is read once when permission is granted and not at all
    otherwise.  When the read delivers a position without coordinates the
    promise never settles. *)
Theorem getLocationDetails_outcomes (reply : Result PermissionStatus)
    (read : LocationDetails.PositionOutcome) :
  LocationDetails.reads (fst (LocationDetails.getLocationDetails reply read)) =
    (if granted reply then 1 else 0) /\
  match snd (LocationDetails.getLocationDetails reply read) with
  | LocationDetails.Returns (Some location) =>
      LocationDetails.shown (fst (LocationDetails.getLocationDetails reply read)) = [] /\
      granted reply = true /\
      exists position c,
        read = LocationDetails.PositionRead position /\
        bind_option position coords = Some c /\
        location = {| MapScreen.latitude := coords_latitude c;
                      MapScreen.longitude := coords_longitude c |}
  | LocationDetails.Returns None =>
      exists message,
        LocationDetails.shown (fst (LocationDetails.getLocationDetails reply read)) =
          [message] /\
        message <> "Failed to get location." /\
        (granted reply = true ->
         exists error,
           read = LocationDetails.PositionError error /\
           message = LocationDetails.error_message (code error))
  | LocationDetails.NeverSettles =>
      granted reply = true /\
      exists position,
        read = LocationDetails.PositionRead position /\
        bind_option position coords = None
  end.
Proof.
  unfold LocationDetails.getLocationDetails, granted.
  destruct (requestLocationPermission reply) as [[|]|e]; simpl.
  - destruct read as [position|error]; simpl.
    + destruct (bind_option position coords) as [c|] eqn:Hc; simpl;
        rewrite reads_app, ?shown_app; simpl;
        (split; [destruct Platform_OS; reflexivity|]).
      * split; [destruct Platform_OS; reflexivity|]. split; [reflexivity|].
        exists position, c. auto.
      * split; [reflexivity|]. exists position. auto.
    + rewrite !reads_app, !shown_app. simpl.
      split; [destruct Platform_OS; reflexivity|].
      exists (LocationDetails.error_message (code error)).
      split; [destruct Platform_OS; reflexivity|].
      split; [apply error_message_never_initial|].
      intros _. exists error. auto.
  - rewrite reads_app, shown_app. simpl.
    split; [destruct Platform_OS; reflexivity|].
    exists "Permission denied". split; [destruct Platform_OS; reflexivity|].
    split; [discriminate|]. discriminate.
  - rewrite reads_app, shown_app. simpl.
    split; [destruct Platform_OS; reflexivity|].
    exists "An unexpected error occurred.". split; [destruct Platform_OS; reflexivity|].
    split; [discriminate|]. discriminate.
Qed.

End Details.

(** ** The map screen *)

Section MapScreenFacts.
Context `{Platform}.

(** X13.  On the map screen a position delivered with coordinates is shown at
    once, with the address that was on display, and its lookup is started.
    When a lookup settles its address is put on display whatever position is
    then shown, also none after [stopTracking]; when it fails the address on
    display is kept.  The position shown is not touched. *)
Theorem map_screen_position_before_address :
  (forall (m : MapScreen.State) (position : option GeolocationPosition)
          (c : GeolocationCoordinates),
     bind_option position coords = Some c ->
     MapScreen.location (MapScreen.watchPosition_success position m) =
       Some {| MapScreen.latitude := coords_latitude c;
               MapScreen.longitude := coords_longitude c |} /\
     MapScreen.address (MapScreen.watchPosition_success position m) =
       MapScreen.address m /\
     MapScreen.pending (MapScreen.watchPosition_success position m) =
       MapScreen.pending m ++ [MapScreen.WatchAwaitAddress] /\
     requests (MapScreen.trace (MapScreen.watchPosition_success position m)) =
       requests (MapScreen.trace m) ++
       [(reverseGeocodeApi, "/reverse",
         [("format", PString "jsonv2"); ("lat", PNumber (coords_latitude c));
          ("lon", PNumber (coords_longitude c))])]) /\
  (forall (m : MapScreen.State) (i : nat) (r : AxiosOutcome),
     nth_error (MapScreen.pending m) i = Some MapScreen.WatchAwaitAddress ->
     exists m',
       MapScreen.step (MapScreen.AddressSettled i r) m = Some m' /\
       MapScreen.location m' = MapScreen.location m /\
       MapScreen.tracking m' = MapScreen.tracking m /\
       MapScreen.address m' =
         (if address_ok r then resolved_address r else MapScreen.address m)).
Proof.
  split.
  - intros m position c Hc. unfold MapScreen.watchPosition_success. rewrite Hc. simpl.
    rewrite requests_app. simpl. repeat split; reflexivity.
  - intros m i r Hnth. eexists. split.
    + simpl. rewrite Hnth. reflexivity.
    + unfold MapScreen.watchPosition_success_address, address_ok, resolved_address.
      destruct (fetchAddress_resume r) as [logged [v|e]] eqn:Hres; simpl.
      * rewrite (fetchAddress_resume_success _ _ _ Hres). simpl. auto.
      * rewrite (fetchAddress_resume_failure _ _ _ Hres). simpl. auto.
Qed.

End MapScreenFacts.

(** X14.  [stopTracking] of the map screen has no test of [tracking]: it always
    cancels the subscription the handle names and blanks the view.  Calling
    it again changes nothing, and after it the cleanup of teardown has
    nothing left to cancel. *)
Theorem map_screen_stopTracking_settles (m : MapScreen.State) :
  MapScreen.stopTracking (MapScreen.stopTracking m) = MapScreen.stopTracking m /\
  MapScreen.unmount (MapScreen.stopTracking m) = MapScreen.stopTracking m /\
  MapScreen.tracking (MapScreen.stopTracking m) = false /\
  MapScreen.location (MapScreen.stopTracking m) = None /\
  MapScreen.address (MapScreen.stopTracking m) = Some EmptyString /\
  MapScreen.watchId (MapScreen.stopTracking m) = None /\
  (forall id, MapScreen.watchId m = Some id ->
     ~ In id (MapScreen.watchers (MapScreen.stopTracking m)) /\
     MapScreen.trace (MapScreen.stopTracking m) = MapScreen.trace m ++ [ClearWatch id]).
Proof.
  unfold MapScreen.stopTracking, MapScreen.unmount.
  destruct (MapScreen.watchId m) as [id|] eqn:Hid; simpl.
  - do 6 (split; [reflexivity|]). intros id' [= <-]. split; [|reflexivity].
    rewrite filter_In, negb_true_iff, Nat.eqb_neq. tauto.
  - rewrite Hid. do 6 (split; [reflexivity|]). discriminate.
Qed.

(** ** The statements at sample inputs *)

Lemma history_only_grows_witness :
  map place (locations recorded_session) = [(3%float, 4%float, None)] /\
  map reverseData (locations recorded_session) = [None] /\
  map place
    (locations (from_run (run (H := android)
                            [PositionDelivered 0 (position_at 5%float 6%float);
                             StopTrackingCalled;
                             StopAddressSettled 1 (address_of "Cibiru");
                             WatchAddressSettled 0 (address_of "Cileunyi")]
                            recorded_session))) =
    [(3%float, 4%float, None); (5%float, 6%float, None)] /\
  map reverseData
    (locations (from_run (run (H := android)
                            [PositionDelivered 0 (position_at 5%float 6%float);
                             StopTrackingCalled;
                             StopAddressSettled 1 (address_of "Cibiru");
                             WatchAddressSettled 0 (address_of "Cileunyi")]
                            recorded_session))) =
    [Some (sample_stringify (JObject [("village", JString "Cibiru")]));
     Some (sample_stringify (JObject [("village", JString "Cileunyi")]))] /\
  exists more,
    map place
      (locations (from_run (run (H := android)
                              [PositionDelivered 0 (position_at 5%float 6%float);
                               StopTrackingCalled;
                               StopAddressSettled 1 (address_of "Cibiru");
                               WatchAddressSettled 0 (address_of "Cileunyi")]
                              recorded_session))) =
    map place (locations recorded_session) ++ more.
Proof.
  split; [reflexivity|]. split; [reflexivity|].
  split; [vm_compute; reflexivity|]. split; [vm_compute; reflexivity|].
  exact (history_only_grows (H := android)
           [PositionDelivered 0 (position_at 5%float 6%float);
            StopTrackingCalled;
            StopAddressSettled 1 (address_of "Cibiru");
            WatchAddressSettled 0 (address_of "Cileunyi")]
           recorded_session _ ltac:(vm_compute; reflexivity)).
Defined.

Lemma lost_subscription_is_never_cancelled_witness :
  orphan 0 sample_deviceData
    (from_run (run (H := android) [StopTrackingCalled; Unmounted] lost_session)).
Proof.
  assert (Hrun : run (H := android) [StopTrackingCalled; Unmounted] lost_session =
                 Some (from_run (run (H := android) [StopTrackingCalled; Unmounted]
                                   lost_session)))
    by (vm_compute; reflexivity).
  assert (Horphan : orphan 0 sample_deviceData lost_session).
  { split; [reflexivity|]. split; [discriminate|]. vm_compute. lia. }
  exact (proj1 (lost_subscription_is_never_cancelled (H := android)
                  [StopTrackingCalled; Unmounted] lost_session _ 0 sample_deviceData None
                  Hrun Horphan)).
Defined.

Lemma first_lookup_failure_sends_no_START_witness :
  exists st' e,
    step (H := android) (StartAddressSettled 0 status_500) awaiting_first_address =
      Some st' /\
    same_session st' awaiting_first_address /\
    pending st' = remove_nth 0 (pending awaiting_first_address) /\
    emitted (trace st') = emitted (trace awaiting_first_address) /\
    trace st' =
      trace awaiting_first_address ++
      [ConsoleError "Error fetching address:" (Some (ErrJs e)); UnhandledRejection e].
Proof.
  exact (first_lookup_failure_sends_no_START (H := android) awaiting_first_address 0
           sample_deviceData 1%float 2%float status_500 eq_refl eq_refl).
Defined.

Lemma answer_without_address_is_recorded_witness :
  snd (fetchAddress_resume (H := android) (Resolved answer_without_address)) = Ok None.
Proof.
  exact (proj1 (answer_without_address_is_recorded (H := android)
                  (watchPosition_success sample_deviceData (position_at 3%float 4%float)
                     tracking_session)
                  0 sample_deviceData 3%float 4%float answer_without_address
                  (JObject [("error", JString "Unable to geocode")])
                  eq_refl eq_refl ltac:(discriminate) eq_refl)).
Defined.

Lemma no_permission_no_tracking_witness :
  (exists st',
     step (H := android) (PermissionAnswered 0 (Ok DENIED))
       (startTracking (H := android) initial) = Some st' /\
     same_session st' (startTracking (H := android) initial) /\
     pending st' = [] /\
     trace st' =
       [PermissionRequested;
        AlertShown "Permission Denied" "Location access is required."]) /\
  (exists st',
     step (H := android)
       (PermissionAnswered 0 (Err (mkJsError "Error" "Permission module missing")))
       (startTracking (H := android) initial) = Some st' /\
     same_session st' (startTracking (H := android) initial) /\
     trace st' =
       [PermissionRequested;
        ConsoleError "Error in startTracking:"
          (Some (ErrJs (mkJsError "Error" "Permission module missing")))]) /\
  (exists m',
     MapScreen.step (H := android) (MapScreen.PermissionAnswered 0 (Ok DENIED))
       (MapScreen.startTracking (H := android) MapScreen.initial) = Some m' /\
     MapScreen.tracking m' = false /\
     MapScreen.watchers m' = [] /\
     MapScreen.trace m' =
       [PermissionRequested;
        AlertShown "Permission Denied" "Izin mengkases lokasi dibutuhkan."]).
Proof.
  destruct (no_permission_no_tracking (H := android)) as (_ & Htracker & Hmap).
  split; [|split].
  - destruct (Htracker (startTracking (H := android) initial) 0 (Ok DENIED)
                eq_refl eq_refl)
      as (st' & o & Hstep & Hsame & Hpending & Htrace & _ & _ & Ho).
    exists st'. subst o. auto.
  - destruct (Htracker (startTracking (H := android) initial) 0
                (Err (mkJsError "Error" "Permission module missing"))
                eq_refl eq_refl)
      as (st' & o & Hstep & Hsame & _ & Htrace & _ & _ & Ho).
    exists st'. subst o. auto.
  - destruct (Hmap (MapScreen.startTracking (H := android) MapScreen.initial) 0
                (Ok DENIED) eq_refl eq_refl)
      as (m' & o & Hstep & Hflag & _ & Hwatchers & _ & _ & Htrace & _ & Ho).
    exists m'. subst o. auto.
Defined.

Lemma stop_during_start_leaves_subscription_witness :
  exists st',
    run (H := android) [StopTrackingCalled; StartDeviceDataRead 0 sample_device]
      awaiting_device = Some st' /\
    tracking st' = false /\
    watchId st' = Some (nextWatchId awaiting_device) /\
    watchers st' = watchers awaiting_device ++ [(nextWatchId awaiting_device,
                                                 sample_deviceData)] /\
    In (CurrentPositionRequest sample_deviceData) (pending st') /\
    in_flight stop_task st' = in_flight stop_task awaiting_device + 1.
Proof.
  exact (stop_during_start_leaves_subscription (H := android) awaiting_device 0
           sample_device sample_deviceData eq_refl eq_refl eq_refl eq_refl).
Defined.

Lemma formatAddress_shows_fetched_address_witness :
  formatAddress (H := sample_runtime)
    (resolved_address (H := android) (Resolved answer_with_village)) =
  ([], "Sukamaju, Cibiru").
Proof.
  exact (proj1 (proj2 (@formatAddress_shows_fetched_address android sample_runtime
                         answer_with_village
                         (JObject
                            [("address",
                              JObject [("village", JString "Sukamaju");
                                       ("municipality", JString "Cibiru");
                                       ("county", JString "Bandung");
                                       ("state", JString "Jawa Barat")])])
                         (JObject [("village", JString "Sukamaju");
                                   ("municipality", JString "Cibiru");
                                   ("county", JString "Bandung");
                                   ("state", JString "Jawa Barat")])
                         eq_refl eq_refl eq_refl))
           "Sukamaju" "Cibiru" eq_refl ltac:(discriminate) eq_refl ltac:(discriminate)).
Defined.

Lemma formatAddress_unknown_for_missing_address_witness :
  snd (formatAddress (H := sample_runtime)
         (resolved_address (H := android) (Resolved answer_without_address))) =
  "Unknown Address".
Proof.
  exact (f_equal snd
           (proj1 (@formatAddress_unknown_for_missing_address android sample_runtime
                     answer_without_address
                     (JObject [("error", JString "Unable to geocode")])
                     {| err_name := "SyntaxError"; err_message := "JSON Parse error" |}
                     eq_refl ltac:(discriminate) eq_refl eq_refl)
              eq_refl)).
Defined.

Lemma getLocationDetails_outcomes_witness :
  LocationDetails.reads
    (fst (LocationDetails.getLocationDetails (H := android) (Ok DENIED)
            (LocationDetails.PositionError position_timeout))) = 0.
Proof.
  exact (proj1 (getLocationDetails_outcomes (H := android) (Ok DENIED)
                  (LocationDetails.PositionError position_timeout))).
Defined.

Lemma map_screen_position_before_address_witness :
  MapScreen.location
    (MapScreen.watchPosition_success (position_at 3%float 4%float) map_tracking) =
  Some {| MapScreen.latitude := 3%float; MapScreen.longitude := 4%float |}.
Proof.
  exact (proj1 (proj1 (map_screen_position_before_address (H := android))
                  map_tracking (position_at 3%float 4%float)
                  (mkCoords 3%float 4%float 5%float) eq_refl)).
Defined.

Lemma map_screen_stopTracking_settles_witness :
  ~ In 0 (MapScreen.watchers (MapScreen.stopTracking map_tracking)) /\
  MapScreen.trace (MapScreen.stopTracking map_tracking) =
    MapScreen.trace map_tracking ++ [ClearWatch 0].
Proof.
  exact (proj2 (proj2 (proj2 (proj2 (proj2 (proj2
           (map_screen_stopTracking_settles map_tracking)))))) 0 eq_refl).
Defined.
